(** * Sensor ingestion, alerting and health scoring of the predictive
      maintenance assistant

    A shallow embedding of
    - [server/services/mqttService.js] (message handling, reading
      coalescing, threshold alerts),
    - the equipment route module (health score, predictions), and
    - [server/routes/analytics.js] (health score, second copy).

    JavaScript numbers are IEEE 754 binary64 values, embedded as Rocq's
    primitive [float]; nullable columns are [option float].  The [async]
    functions are embedded as trees of store operations, so that one
    definition yields both the run of a single handler and the interleaving
    of several handlers at their [await]s. *)

From Stdlib Require Import ZArith List String Ascii Bool Lia Floats.
Import ListNotations.

Set Warnings "-inexact-float".

Local Open Scope bool_scope.

(* ================================================================== *)
(** * JavaScript numbers *)

Module JS.

Local Open Scope float_scope.

(** A nullable numeric column of a stored row: [None] stands for [NULL],
    which the ORM reads back as [null]. *)
Definition Field := option float.

(** [ToBoolean] on numbers: [+0], [-0] and [NaN] are falsy. *)
Definition ToBoolean (x : float) : bool := negb (is_zero x || is_nan x).

Definition truthy (v : Field) : bool :=
  match v with
  | Some x => ToBoolean x
  | None => false
  end.

(** [ToNumber] of a value read back from the store: [null] becomes [+0]. *)
Definition ToNumber (v : Field) : float :=
  match v with
  | Some x => x
  | None => 0
  end.

(** [a > b] and [a < b]; a comparison involving [NaN] is [false]. *)
Definition gt (a b : Field) : bool := ToNumber b <? ToNumber a.
Definition lt (a b : Field) : bool := ToNumber a <? ToNumber b.

(** What a key of a parsed payload holds: nothing ([undefined], the key is
    absent), [null], or a number. *)
Inductive Value :=
| undefined
| null
| number (x : float).

Definition truthyValue (v : Value) : bool :=
  match v with
  | number x => ToBoolean x
  | _ => false
  end.

(** [a || b] on values. *)
Definition or_else (a b : Value) : Value := if truthyValue a then a else b.

(** What [JSON.stringify] leaves of a number inside a JSONB column: a
    number that is not finite is stored as [null]. *)
Definition jsonNumber (v : Field) : Field :=
  match v with
  | Some x => if is_finite x then Some x else None
  | None => None
  end.

(** The integer part of a finite number ([ToIntegerOrInfinity]); [None] for
    NaN and the infinities. *)
Definition truncZ (x : float) : option Z :=
  match Prim2SF x with
  | S754_zero _ => Some 0%Z
  | S754_finite s m e =>
      let magnitude := Z.shiftl (Z.pos m) e in
      Some (if s then (- magnitude)%Z else magnitude)
  | _ => None
  end.

(** [Math.min] and [Math.max] of two arguments. *)
Definition Math_min (x y : float) : float :=
  if is_nan x || is_nan y then nan
  else if x <? y then x
  else if y <? x then y
  else if is_zero x && get_sign y then y else x.

Definition Math_max (x y : float) : float :=
  if is_nan x || is_nan y then nan
  else if x <? y then y
  else if y <? x then x
  else if is_zero x && get_sign x then y else x.

(** The float nearest to an integer (exact below 2^53). *)
Definition of_Z (z : Z) : float := SF2Prim (binary_normalize prec emax z 0 false).

(** [Math.floor]. *)
Definition Math_floor (x : float) : float :=
  match Prim2SF x with
  | S754_finite s m e =>
      if (0 <=? e)%Z then x
      else
        let v := if s then Z.neg m else Z.pos m in
        of_Z (Z.shiftr v (- e))
  | _ => x
  end.

(** [Math.round]: nearest integer, ties towards +infinity; results in
    [[-0.5, 0)] are [-0]. *)
Definition Math_round (x : float) : float :=
  match Prim2SF x with
  | S754_finite s m e =>
      if (0 <=? e)%Z then x
      else
        let v := if s then Z.neg m else Z.pos m in
        let q := Z.shiftr (2 * v + Z.shiftl 1 (- e)) (- e + 1) in
        if (q =? 0)%Z && s then neg_zero else of_Z q
  | _ => x
  end.

End JS.

Import JS.

(* ================================================================== *)
(** * Data model (the Sequelize models) *)

(** Times are milliseconds since the epoch.  A [Date] is [None] when it is
    an Invalid Date. *)
Definition Date := option Z.

(** [TimeClip]: a time value outside +-8.64e15 ms is not a valid date. *)
Definition TimeClip (t : Z) : Date :=
  if (Z.abs t <=? 8640000000000000)%Z then Some t else None.

(** [new Date(d.getTime() + delta)]. *)
Definition Date_shift (d : Date) (delta : Z) : Date :=
  match d with
  | Some t => TimeClip (t + delta)
  | None => None
  end.

Module Equipment.
Record t := mk {
    id : string;
    name : string;
    maxTemperature : Field;
    maxVibration : Field;
    maxPressure : Field;
    minPressure : Field
}.
End Equipment.

Module SensorReading.
Record t := mk {
    id : nat;
    equipmentId : string;
    timestamp : Z;
    temperature : Field;
    vibration : Field;
    pressure : Field;
    humidity : Field;
    electricalCurrent : Field;
    voltage : Field;
    rpm : Field;
    powerConsumption : Field;
    additionalMetrics : option (list (string * float))
}.
End SensorReading.

Inductive AlertType := critical | warning | info.
Inductive AlertStatus := active | acknowledged | resolved.

(** The interpolated alert text, kept as its template and arguments. *)
Inductive AlertMessage :=
| TemperatureExceeds (value threshold : Field)
| VibrationExceeds (value threshold : Field)
| PressureOutside (value minThreshold maxThreshold : Field).

Module Metadata.
Record t := mk {
    sensorType : string;
    value : Field;
    threshold : option Field;
    minThreshold : option Field;
    maxThreshold : option Field;
    readingId : nat
}.
End Metadata.

(** The object literal pushed on [alerts] and given to [Alert.create]. *)
Module AlertData.
Record t := mk {
    equipmentId : string;
    type : AlertType;
    title : string;
    message : AlertMessage;
    metadata : Metadata.t
}.
End AlertData.

Module Alert.
Record t := mk {
    id : nat;
    equipmentId : string;
    type : AlertType;
    title : string;
    message : AlertMessage;
    status : AlertStatus;
    metadata : Metadata.t
}.
End Alert.

(** [updateData]: the keys assigned in [processSensorData].  A metric is
    [None] when its key was never assigned and [Some v] when it was
    assigned [v] (which may itself be [undefined] or [null]). *)
Module UpdateData.
Record t := mk {
    equipmentId : string;
    timestamp : Date;
    temperature : option Value;
    vibration : option Value;
    pressure : option Value;
    humidity : option Value;
    electricalCurrent : option Value;
    voltage : option Value;
    rpm : option Value;
    powerConsumption : option Value;
    additionalMetrics : option (list (string * float))
}.
End UpdateData.

(** The tables the ingestion service reads and writes.  [nextId] stands for
    the fresh UUID a new row receives.  [findOneChoice] stands for the
    database's freedom in a [findOne] without [ORDER BY]: given the rows that
    match, it names the one that is returned. *)
Record DB := mkDB {
  equipment : list Equipment.t;
  sensorReadings : list SensorReading.t;
  alerts : list Alert.t;
  nextId : nat;
  findOneChoice : list SensorReading.t -> nat
}.

Definition AlertType_eqb (a b : AlertType) : bool :=
  match a, b with
  | critical, critical | warning, warning | info, info => true
  | _, _ => false
  end.

Definition AlertStatus_eqb (a b : AlertStatus) : bool :=
  match a, b with
  | active, active | acknowledged, acknowledged | resolved, resolved => true
  | _, _ => false
  end.

(* ================================================================== *)
(** * Store operations and asynchronous programs *)

Inductive Error := SyntaxError | TypeError | DatabaseError.

Inductive Result (A : Type) : Type :=
| Ok (a : A)
| Err (e : Error).
Arguments Ok {A} a.
Arguments Err {A} e.

(** The ORM calls the service awaits. *)
Inductive DbOp : Type -> Type :=
| Equipment_findByPk (pk : option string) : DbOp (option Equipment.t)
| SensorReading_findOne (equipmentId : string) (gte lte : Date)
    : DbOp (option SensorReading.t)
| SensorReading_create (updateData : UpdateData.t) : DbOp SensorReading.t
| SensorReading_update (sensorReading : SensorReading.t)
    (updateData : UpdateData.t) : DbOp SensorReading.t
| Alert_findOne (equipmentId : string) (type : AlertType) (title : string)
    (status : AlertStatus) : DbOp (option Alert.t)
| Alert_create (alertData : AlertData.t) : DbOp Alert.t.

(** [findByPk(undefined)] resolves to [null] without a query. *)
Definition findByPk (db : DB) (pk : option string) : option Equipment.t :=
  match pk with
  | None => None
  | Some k => find (fun e => String.eqb (Equipment.id e) k) (equipment db)
  end.

Definition in_window (equipmentId : string) (gte lte : Z)
  (r : SensorReading.t) : bool :=
  String.eqb (SensorReading.equipmentId r) equipmentId
  && (gte <=? SensorReading.timestamp r)%Z
  && (SensorReading.timestamp r <=? lte)%Z.

(** [SensorReading.findOne] with the window as its [where]: some row that
    matches, whichever the database picks, and [null] when none matches. *)
Definition findReading (db : DB) (equipmentId : string) (gte lte : Z)
  : option SensorReading.t :=
  let matching := filter (in_window equipmentId gte lte) (sensorReadings db) in
  match nth_error matching (findOneChoice db matching) with
  | Some r => Some r
  | None => hd_error matching
  end.

(** What a column holds once [updateData] has been saved: a number or
    [null] is written; a key that is absent, or was assigned [undefined], is
    left out of the statement and the column keeps what it held. *)
Definition assign (old : Field) (new : option Value) : Field :=
  match new with
  | Some (number x) => Some x
  | Some null => None
  | Some undefined => old
  | None => old
  end.

Definition assignMetrics {A} (old new : option A) : option A :=
  match new with
  | Some v => Some v
  | None => old
  end.

(** [instance.update(updateData)], and the row [create(updateData)]
    inserts when [r] is a row of [NULL]s. *)
Definition applyUpdate (r : SensorReading.t) (u : UpdateData.t) (ts : Z)
  : SensorReading.t :=
  SensorReading.mk
    (SensorReading.id r)
    (UpdateData.equipmentId u)
    ts
    (assign (SensorReading.temperature r) (UpdateData.temperature u))
    (assign (SensorReading.vibration r) (UpdateData.vibration u))
    (assign (SensorReading.pressure r) (UpdateData.pressure u))
    (assign (SensorReading.humidity r) (UpdateData.humidity u))
    (assign (SensorReading.electricalCurrent r) (UpdateData.electricalCurrent u))
    (assign (SensorReading.voltage r) (UpdateData.voltage u))
    (assign (SensorReading.rpm r) (UpdateData.rpm u))
    (assign (SensorReading.powerConsumption r) (UpdateData.powerConsumption u))
    (assignMetrics (SensorReading.additionalMetrics r)
       (UpdateData.additionalMetrics u)).

Definition newReading (id : nat) (u : UpdateData.t) (ts : Z)
  : SensorReading.t :=
  applyUpdate
    (SensorReading.mk id (UpdateData.equipmentId u) ts
       None None None None None None None None None)
    u ts.

Definition updateRow (id : nat) (u : UpdateData.t) (ts : Z)
  (row : SensorReading.t) : SensorReading.t :=
  if Nat.eqb (SensorReading.id row) id then applyUpdate row u ts else row.

Definition alertKey (equipmentId : string) (type : AlertType)
  (title : string) (status : AlertStatus) (a : Alert.t) : bool :=
  String.eqb (Alert.equipmentId a) equipmentId
  && AlertType_eqb (Alert.type a) type
  && String.eqb (Alert.title a) title
  && AlertStatus_eqb (Alert.status a) status.

(** [metadata] as the JSONB column stores it. *)
Definition storedMetadata (m : Metadata.t) : Metadata.t :=
  Metadata.mk (Metadata.sensorType m)
    (jsonNumber (Metadata.value m))
    (option_map jsonNumber (Metadata.threshold m))
    (option_map jsonNumber (Metadata.minThreshold m))
    (option_map jsonNumber (Metadata.maxThreshold m))
    (Metadata.readingId m).

(** [Alert.create(alertData)]: [status] takes its default, ['active']. *)
Definition newAlert (id : nat) (d : AlertData.t) : Alert.t :=
  Alert.mk id (AlertData.equipmentId d) (AlertData.type d)
    (AlertData.title d) (AlertData.message d) active
    (storedMetadata (AlertData.metadata d)).

(** One ORM call, executed atomically on the store.  A query or a write
    that is given an Invalid Date is rejected. *)
Definition exec {X} (op : DbOp X) (db : DB) : Result X * DB :=
  match op in DbOp X return Result X * DB with
  | Equipment_findByPk pk => (Ok (findByPk db pk), db)
  | SensorReading_findOne equipmentId gte lte =>
      match gte, lte with
      | Some lo, Some hi => (Ok (findReading db equipmentId lo hi), db)
      | _, _ => (Err DatabaseError, db)
      end
  | SensorReading_create u =>
      match UpdateData.timestamp u with
      | Some ts =>
          let r := newReading (nextId db) u ts in
          (Ok r, mkDB (equipment db) (sensorReadings db ++ [r]) (alerts db)
                   (S (nextId db)) (findOneChoice db))
      | None => (Err DatabaseError, db)
      end
  | SensorReading_update inst u =>
      match UpdateData.timestamp u with
      | Some ts =>
          (Ok (applyUpdate inst u ts),
           mkDB (equipment db)
             (map (updateRow (SensorReading.id inst) u ts) (sensorReadings db))
             (alerts db) (nextId db) (findOneChoice db))
      | None => (Err DatabaseError, db)
      end
  | Alert_findOne equipmentId type title status =>
      (Ok (find (alertKey equipmentId type title status) (alerts db)), db)
  | Alert_create d =>
      let a := newAlert (nextId db) d in
      (Ok a, mkDB (equipment db) (sensorReadings db) (alerts db ++ [a])
               (S (nextId db)) (findOneChoice db))
  end.

(** An [async] function body: it returns, throws, or awaits an ORM call and
    resumes with the call's outcome. *)
Inductive Async (A : Type) : Type :=
| Return (a : A)
| Throw (e : Error)
| Await {X : Type} (op : DbOp X) (k : Result X -> Async A).
Arguments Return {A} a.
Arguments Throw {A} e.
Arguments Await {A X} op k.

Fixpoint bind {A B} (m : Async A) (f : A -> Async B) : Async B :=
  match m with
  | Return a => f a
  | Throw e => Throw e
  | Await op k => Await op (fun r => bind (k r) f)
  end.

(** [try { m } catch (error) { h error }]. *)
Fixpoint try_catch {A} (m : Async A) (h : Error -> Async A) : Async A :=
  match m with
  | Return a => Return a
  | Throw e => h e
  | Await op k => Await op (fun r => try_catch (k r) h)
  end.

(** [await op]: a rejected call throws at the [await]. *)
Definition await {X} (op : DbOp X) : Async X :=
  Await op (fun r => match r with Ok x => Return x | Err e => Throw e end).

Notation "x <- m ;; k" := (bind m (fun x => k))
  (at level 61, m at next level, right associativity).

(** [for (const x of l) { body x }]. *)
Fixpoint forEach {X} (l : list X) (body : X -> Async unit) : Async unit :=
  match l with
  | [] => Return tt
  | x :: l' => _ <- body x ;; forEach l' body
  end.

(** Running one [async] call to completion with no other call in between. *)
Fixpoint run {A} (m : Async A) (db : DB) : Result A * DB :=
  match m with
  | Return a => (Ok a, db)
  | Throw e => (Err e, db)
  | Await op k => let (r, db') := exec op db in run (k r) db'
  end.

(** Several calls in flight: [schedule] names, step by step, the call whose
    pending ORM call completes next. *)
Definition resume (m : Async unit) (db : DB) : Async unit * DB :=
  match m with
  | Await op k => let (r, db') := exec op db in (k r, db')
  | _ => (m, db)
  end.

Fixpoint resumeNth (i : nat) (calls : list (Async unit)) (db : DB)
  : list (Async unit) * DB :=
  match calls, i with
  | [], _ => ([], db)
  | m :: rest, O => let (m', db') := resume m db in (m' :: rest, db')
  | m :: rest, S j => let (rest', db') := resumeNth j rest db in (m :: rest', db')
  end.

Fixpoint interleave (schedule : list nat) (calls : list (Async unit)) (db : DB)
  : list (Async unit) * DB :=
  match schedule with
  | [] => (calls, db)
  | i :: schedule' =>
      let (calls', db') := resumeNth i calls db in
      interleave schedule' calls' db'
  end.

(* ================================================================== *)
(** * The MQTT service ([mqttService.js]) *)

(** What the [timestamp] key of a payload holds: nothing, [null], a
    boolean, a number of milliseconds, or a string. *)
Inductive Stamp :=
| stamp_undefined
| stamp_null
| stamp_bool (b : bool)
| stamp_number (x : float)
| stamp_string (s : string).

(** The payload object after [JSON.parse]: the keys the service reads.  A
    metric key is absent or holds [null] or a number. *)
Module SensorData.
Record t := mk {
    value : Value;
    temperature : Value;
    vibration : Value;
    pressure : Value;
    humidity : Value;
    current : Value;
    voltage : Value;
    power : Value;
    rpm : Value;
    metrics : option (list (string * float));
    timestamp : Stamp
}.
End SensorData.

(** What [JSON.parse] yields: [null], or a value whose keys can be read. *)
Inductive Json :=
| JsonNull
| JsonObject (data : SensorData.t).

(** The message bytes: either not JSON at all, or the text of a value. *)
Inductive Message :=
| NotJson
| JsonText (v : Json).

Definition JSON_parse (message : Message) : Async Json :=
  match message with
  | NotJson => Throw SyntaxError
  | JsonText v => Return v
  end.

(** Reading a key of [data]; reading a key of [null] throws. *)
Definition keysOf (data : Json) : Async SensorData.t :=
  match data with
  | JsonNull => Throw TypeError
  | JsonObject d => Return d
  end.

(** [topic.split('/')]. *)
Fixpoint split (sep : ascii) (s : string) : list string :=
  match s with
  | EmptyString => [EmptyString]
  | String c rest =>
      if Ascii.eqb c sep then EmptyString :: split sep rest
      else
        match split sep rest with
        | [] => [String c EmptyString]
        | h :: t => String c h :: t
        end
  end.

(** The empty string is the only falsy string. *)
Definition truthyString (s : string) : bool := negb (String.eqb s EmptyString).

Section Service.

(** [Date.parse] of the JavaScript engine; [None] when the text is not a
    date. *)
Variable Date_parse : string -> option Z.

(** The falsy timestamps are an absent one, [null], [false], the numbers 0
    and NaN, and the empty string. *)
Definition truthyStamp (v : Stamp) : bool :=
  match v with
  | stamp_bool b => b
  | stamp_number x => ToBoolean x
  | stamp_string s => truthyString s
  | _ => false
  end.

(** [new Date(v)]: a number is a count of milliseconds, a string is
    parsed. *)
Definition new_Date (v : Stamp) : Date :=
  match v with
  | stamp_undefined => None
  | stamp_null => Some 0%Z
  | stamp_bool b => Some (if b then 1 else 0)%Z
  | stamp_number x =>
      match truncZ x with
      | Some t => TimeClip t
      | None => None
      end
  | stamp_string s =>
      match Date_parse s with
      | Some t => TimeClip t
      | None => None
      end
  end.

(** [data.timestamp ? new Date(data.timestamp) : new Date()], the clock
    reading [now]. *)
Definition timestampOf (data : SensorData.t) (now : Z) : Date :=
  if truthyStamp (SensorData.timestamp data)
  then new_Date (SensorData.timestamp data)
  else Some now.

(** The [switch (sensorType)] of [processSensorData]; [None] is the
    [default] branch. *)
Definition mapSensorType (sensorType : option string) (data : SensorData.t)
  (equipmentId : string) (timestamp : Date) : option UpdateData.t :=
  let U := UpdateData.mk equipmentId timestamp in
  match sensorType with
  | None => None
  | Some ty =>
      if String.eqb ty "temperature" then
        Some (U (Some (or_else (SensorData.value data) (SensorData.temperature data)))
                None None None None None None None None)
      else if String.eqb ty "vibration" then
        Some (U None (Some (or_else (SensorData.value data) (SensorData.vibration data)))
                None None None None None None None)
      else if String.eqb ty "pressure" then
        Some (U None None (Some (or_else (SensorData.value data) (SensorData.pressure data)))
                None None None None None None)
      else if String.eqb ty "humidity" then
        Some (U None None None (Some (or_else (SensorData.value data) (SensorData.humidity data)))
                None None None None None)
      else if String.eqb ty "electrical" then
        Some (U None None None None (Some (SensorData.current data))
                (Some (SensorData.voltage data)) None
                (Some (SensorData.power data)) None)
      else if String.eqb ty "performance" then
        Some (U None None None None None None (Some (SensorData.rpm data)) None
                (Some match SensorData.metrics data with
                      | Some m => m
                      | None => []
                      end))
      else None
  end.

Definition processSensorData (equipmentId : string) (sensorType : option string)
  (data : Json) (now : Z) : Async (option SensorReading.t) :=
  try_catch
    (data <- keysOf data ;;
     let timestamp := timestampOf data now in
     sensorReading <- await (SensorReading_findOne equipmentId
                               (Date_shift timestamp (-5000))
                               (Date_shift timestamp 5000)) ;;
     match mapSensorType sensorType data equipmentId timestamp with
     | None => Return None
     | Some updateData =>
         match sensorReading with
         | Some sensorReading =>
             r <- await (SensorReading_update sensorReading updateData) ;;
             Return (Some r)
         | None =>
             r <- await (SensorReading_create updateData) ;;
             Return (Some r)
         end
     end)
    (fun _ => Return None).

(** The three threshold tests of [checkForAlerts]. *)
Definition temperatureFires (equipment : Equipment.t)
  (sensorReading : SensorReading.t) : bool :=
  truthy (SensorReading.temperature sensorReading)
  && gt (SensorReading.temperature sensorReading)
        (Equipment.maxTemperature equipment).

Definition vibrationFires (equipment : Equipment.t)
  (sensorReading : SensorReading.t) : bool :=
  truthy (SensorReading.vibration sensorReading)
  && gt (SensorReading.vibration sensorReading)
        (Equipment.maxVibration equipment).

Definition pressureFires (equipment : Equipment.t)
  (sensorReading : SensorReading.t) : bool :=
  if truthy (SensorReading.pressure sensorReading) then
    gt (SensorReading.pressure sensorReading) (Equipment.maxPressure equipment)
    || lt (SensorReading.pressure sensorReading) (Equipment.minPressure equipment)
  else false.

Definition temperatureAlert (equipment : Equipment.t)
  (sensorReading : SensorReading.t) : AlertData.t :=
  AlertData.mk (Equipment.id equipment) critical "High Temperature Alert"
    (TemperatureExceeds (SensorReading.temperature sensorReading)
       (Equipment.maxTemperature equipment))
    (Metadata.mk "temperature" (SensorReading.temperature sensorReading)
       (Some (Equipment.maxTemperature equipment)) None None
       (SensorReading.id sensorReading)).

Definition vibrationAlert (equipment : Equipment.t)
  (sensorReading : SensorReading.t) : AlertData.t :=
  AlertData.mk (Equipment.id equipment) warning "High Vibration Alert"
    (VibrationExceeds (SensorReading.vibration sensorReading)
       (Equipment.maxVibration equipment))
    (Metadata.mk "vibration" (SensorReading.vibration sensorReading)
       (Some (Equipment.maxVibration equipment)) None None
       (SensorReading.id sensorReading)).

Definition pressureAlert (equipment : Equipment.t)
  (sensorReading : SensorReading.t) : AlertData.t :=
  AlertData.mk (Equipment.id equipment) warning "Pressure Out of Range"
    (PressureOutside (SensorReading.pressure sensorReading)
       (Equipment.minPressure equipment) (Equipment.maxPressure equipment))
    (Metadata.mk "pressure" (SensorReading.pressure sensorReading) None
       (Some (Equipment.minPressure equipment))
       (Some (Equipment.maxPressure equipment))
       (SensorReading.id sensorReading)).

(** The [alerts] array once the three tests have run. *)
Definition firedAlerts (equipment : Equipment.t)
  (sensorReading : SensorReading.t) : list AlertData.t :=
  (if temperatureFires equipment sensorReading
   then [temperatureAlert equipment sensorReading] else [])
  ++ (if vibrationFires equipment sensorReading
      then [vibrationAlert equipment sensorReading] else [])
  ++ (if pressureFires equipment sensorReading
      then [pressureAlert equipment sensorReading] else []).

(** The body of the [for] loop: find an active alert with the same
    equipment, type and title, and create one when there is none. *)
Definition createIfAbsent (alertData : AlertData.t) : Async unit :=
  try_catch
    (existingAlert <- await (Alert_findOne (AlertData.equipmentId alertData)
                               (AlertData.type alertData)
                               (AlertData.title alertData) active) ;;
     match existingAlert with
     | None => _ <- await (Alert_create alertData) ;; Return tt
     | Some _ => Return tt
     end)
    (fun _ => Return tt).

Definition checkForAlerts (equipment : Equipment.t)
  (sensorReading : SensorReading.t) : Async unit :=
  forEach (firedAlerts equipment sensorReading) createIfAbsent.

Definition handleMessage (topic : string) (message : Message) (now : Z)
  : Async unit :=
  try_catch
    (data <- JSON_parse message ;;
     let topicParts := split "/" topic in
     let equipmentId := nth_error topicParts 1 in
     let sensorType := nth_error topicParts 2 in
     equipment <- await (Equipment_findByPk equipmentId) ;;
     match equipment, equipmentId with
     | Some equipment, Some equipmentId =>
         sensorReading <- processSensorData equipmentId sensorType data now ;;
         match sensorReading with
         | Some sensorReading => checkForAlerts equipment sensorReading
         | None => Return tt
         end
     | _, _ => Return tt
     end)
    (fun _ => Return tt).

End Service.

(* ================================================================== *)
(** * The route helpers *)

Inductive RiskLevel := low | medium | high.

Module Factor.
Record t := mk {
    name : string;
    impact : float;
    trend : string
}.
End Factor.

Module Predictions.
Record t := mk {
    failureProbability : float;
    remainingUsefulLife : float;
    nextMaintenanceDate : Z;
    riskLevel : RiskLevel;
    confidence : float;
    factors : list Factor.t
}.
End Predictions.

(** An entry of the array [generateAlerts] returns. *)
Module RouteAlert.
Record t := mk {
    type : AlertType;
    message : string;
    value : Field;
    threshold : Field
}.
End RouteAlert.

Inductive Priority := priority_high | priority_medium.

(** The [reason] of a recommendation: a fixed text, or the interpolated
    "[days] days since last maintenance". *)
Inductive Reason :=
| ReasonText (text : string)
| DaysSinceLastMaintenance (days : Z).

Module Recommendation.
Record t := mk {
    priority : Priority;
    action : string;
    reason : Reason
}.
End Recommendation.

(** The counters of the dashboard's [healthDistribution]. *)
Module HealthDistribution.
Record t := mk {
    excellent : nat;
    good : nat;
    fair : nat;
    poor : nat
}.
End HealthDistribution.

(** The equipment route module. *)
Module EquipmentRoutes.

Local Open Scope float_scope.

Definition calculateHealthScore (readings : option (list SensorReading.t))
  (equipment : Equipment.t) : float :=
  match readings with
  | None => 50
  | Some [] => 50
  | Some (latest :: _) =>
      let score := 100 in
      let score :=
        if gt (SensorReading.temperature latest) (Equipment.maxTemperature equipment)
        then score - 20
        else if gt (SensorReading.temperature latest)
                  (Some (ToNumber (Equipment.maxTemperature equipment) * 0.9))
        then score - 10
        else score in
      let score :=
        if gt (SensorReading.vibration latest) (Equipment.maxVibration equipment)
        then score - 25
        else if gt (SensorReading.vibration latest)
                  (Some (ToNumber (Equipment.maxVibration equipment) * 0.8))
        then score - 10
        else score in
      let score :=
        if gt (SensorReading.pressure latest) (Equipment.maxPressure equipment)
           || lt (SensorReading.pressure latest) (Equipment.minPressure equipment)
        then score - 15
        else score in
      Math_max 0 (Math_min 100 score)
  end.

Definition generateAlerts (readings : option (list SensorReading.t))
  (equipment : Equipment.t) : list RouteAlert.t :=
  match readings with
  | None => []
  | Some [] => []
  | Some (latest :: _) =>
      (if gt (SensorReading.temperature latest) (Equipment.maxTemperature equipment)
       then [RouteAlert.mk critical "Temperature exceeds maximum threshold"
               (SensorReading.temperature latest)
               (Equipment.maxTemperature equipment)]
       else [])
      ++ (if gt (SensorReading.vibration latest) (Equipment.maxVibration equipment)
          then [RouteAlert.mk warning "Vibration levels are high"
                  (SensorReading.vibration latest)
                  (Equipment.maxVibration equipment)]
          else [])
  end.

(** [daysSinceLastMaintenance] is [null] when the equipment has no completed
    maintenance, and a whole number of days otherwise; [null] and 0 are
    falsy. *)
Definition generateRecommendations (healthScore : float)
  (daysSinceLastMaintenance : option Z) : list Recommendation.t :=
  (if healthScore <? 30 then
     [Recommendation.mk priority_high "Schedule immediate inspection"
        (ReasonText "Equipment health score is critically low")]
   else if healthScore <? 60 then
     [Recommendation.mk priority_medium "Schedule preventive maintenance"
        (ReasonText "Equipment health score indicates potential issues")]
   else [])
  ++ match daysSinceLastMaintenance with
     | Some days =>
         if negb (days =? 0)%Z && (90 <? days)%Z then
           [Recommendation.mk priority_medium "Schedule routine maintenance"
              (DaysSinceLastMaintenance days)]
         else []
     | None => []
     end.

(** The part of the [/:id/health] response that is computed from the
    latest readings: the score, the first five readings, the alerts and the
    recommendations. *)
Definition healthResponse (latestReadings : list SensorReading.t)
  (equipment : Equipment.t) (daysSinceLastMaintenance : option Z)
  : float * list SensorReading.t * list RouteAlert.t * list Recommendation.t :=
  let healthScore := calculateHealthScore (Some latestReadings) equipment in
  (healthScore,
   firstn 5 latestReadings,
   generateAlerts (Some latestReadings) equipment,
   generateRecommendations healthScore daysSinceLastMaintenance).

(** [historicalData.reduce((sum, reading) => sum + reading.metric, 0)]. *)
Definition sumOf (metric : SensorReading.t -> Field)
  (historicalData : list SensorReading.t) : float :=
  fold_left (fun sum reading => sum + ToNumber (metric reading)) historicalData 0.

Section Predict.

(** [moment().add(days, 'days').toDate()], from the moment library. *)
Variable momentAddDays : float -> Z.

(** [sum / historicalData.length]. *)
Definition average (metric : SensorReading.t -> Field)
  (historicalData : list SensorReading.t) : float :=
  sumOf metric historicalData / of_Z (Z.of_nat (List.length historicalData)).

(** The local [failureProbability], before it is rounded. *)
Definition failureProbabilityOf (historicalData : list SensorReading.t)
  (equipment : Equipment.t) : float :=
  let avgTemperature := average SensorReading.temperature historicalData in
  let avgVibration := average SensorReading.vibration historicalData in
  let tempRisk := avgTemperature / ToNumber (Equipment.maxTemperature equipment) in
  let vibrationRisk := avgVibration / ToNumber (Equipment.maxVibration equipment) in
  Math_min 100 ((tempRisk + vibrationRisk) * 50).

Definition generatePredictions (historicalData : list SensorReading.t)
  (equipment : Equipment.t) : Predictions.t :=
  let avgTemperature := average SensorReading.temperature historicalData in
  let avgVibration := average SensorReading.vibration historicalData in
  let tempRisk := avgTemperature / ToNumber (Equipment.maxTemperature equipment) in
  let vibrationRisk := avgVibration / ToNumber (Equipment.maxVibration equipment) in
  let failureProbability := failureProbabilityOf historicalData equipment in
  let riskLevel :=
    if 70 <? failureProbability then high
    else if 40 <? failureProbability then medium
    else low in
  let remainingUsefulLife := Math_max 1 (365 - failureProbability * 3.65) in
  let nextMaintenanceDate := momentAddDays (Math_floor (remainingUsefulLife * 0.8)) in
  Predictions.mk
    (Math_round failureProbability)
    (Math_round remainingUsefulLife)
    nextMaintenanceDate
    riskLevel
    85
    [ Factor.mk "Temperature Trend" (tempRisk * 100) "increasing";
      Factor.mk "Vibration Pattern" (vibrationRisk * 100) "stable" ].

End Predict.

End EquipmentRoutes.

(** The analytics route module: its own copy of the health score. *)
Module AnalyticsRoutes.

Local Open Scope float_scope.

Definition calculateHealthScore (readings : option (list SensorReading.t))
  (equipment : Equipment.t) : float :=
  match readings with
  | None => 50
  | Some [] => 50
  | Some (latest :: _) =>
      let score := 100 in
      let score :=
        if gt (SensorReading.temperature latest) (Equipment.maxTemperature equipment)
        then score - 20
        else if gt (SensorReading.temperature latest)
                  (Some (ToNumber (Equipment.maxTemperature equipment) * 0.9))
        then score - 10
        else score in
      let score :=
        if gt (SensorReading.vibration latest) (Equipment.maxVibration equipment)
        then score - 25
        else if gt (SensorReading.vibration latest)
                  (Some (ToNumber (Equipment.maxVibration equipment) * 0.8))
        then score - 10
        else score in
      let score :=
        if gt (SensorReading.pressure latest) (Equipment.maxPressure equipment)
           || lt (SensorReading.pressure latest) (Equipment.minPressure equipment)
        then score - 15
        else score in
      Math_max 0 (Math_min 100 score)
  end.

(** One step of the [forEach] that fills [healthDistribution]. *)
Definition countHealth (healthDistribution : HealthDistribution.t)
  (healthScore : float) : HealthDistribution.t :=
  let h := healthDistribution in
  if 80 <=? healthScore then
    HealthDistribution.mk (S (HealthDistribution.excellent h))
      (HealthDistribution.good h) (HealthDistribution.fair h)
      (HealthDistribution.poor h)
  else if 60 <=? healthScore then
    HealthDistribution.mk (HealthDistribution.excellent h)
      (S (HealthDistribution.good h)) (HealthDistribution.fair h)
      (HealthDistribution.poor h)
  else if 40 <=? healthScore then
    HealthDistribution.mk (HealthDistribution.excellent h)
      (HealthDistribution.good h) (S (HealthDistribution.fair h))
      (HealthDistribution.poor h)
  else
    HealthDistribution.mk (HealthDistribution.excellent h)
      (HealthDistribution.good h) (HealthDistribution.fair h)
      (S (HealthDistribution.poor h)).

(** The dashboard's distribution over [equipmentList]; each equipment comes
    with its included [sensorReadings]. *)
Definition healthDistribution
  (equipmentList : list (Equipment.t * option (list SensorReading.t)))
  : HealthDistribution.t :=
  fold_left
    (fun h equipment =>
       countHealth h (calculateHealthScore (snd equipment) (fst equipment)))
    equipmentList (HealthDistribution.mk 0 0 0 0).

End AnalyticsRoutes.

(* ================================================================== *)
(** * The broker connection of [MQTTService] *)

Module Connection.

(** The fields of the service object that the connection code touches, with
    what the broker client has been asked to do: [client] tells whether
    [this.client] is set. *)
Record t := mk {
    client : bool;
    isConnected : bool;
    subscribed : list string;
    published : list (string * string)
}.

(** [this.topics], as the constructor sets it. *)
Definition topics : list string :=
  ["sensors/+/temperature"; "sensors/+/vibration"; "sensors/+/pressure";
   "sensors/+/humidity"; "sensors/+/electrical"; "sensors/+/performance"]%string.

(** The state the constructor leaves. *)
Definition initial : t := mk false false [] [].

(** [subscribeToTopics]: one [client.subscribe] per topic. *)
Definition subscribeToTopics (s : t) : t :=
  fold_left
    (fun s topic =>
       mk (client s) (isConnected s) (subscribed s ++ [topic]) (published s))
    topics s.

(** What the service is asked to do, and the events of the broker client
    its callbacks react to.  [connect ok] is a call of [connect()], where
    [ok] tells whether [mqtt.connect] returned a client or threw. *)
Inductive Action :=
| connect (ok : bool)
| on_connect
| on_error
| on_close
| on_reconnect
| publish (topic message : string)
| disconnect.

Definition setConnected (s : t) (b : bool) : t :=
  mk (client s) b (subscribed s) (published s).

(** The callbacks are registered on the client that [connect()] creates, so
    an event reaches the service only once [this.client] is set. *)
Definition act (s : t) (a : Action) : t :=
  match a with
  | connect ok =>
      if ok then mk true (isConnected s) (subscribed s) (published s) else s
  | on_connect =>
      if client s then subscribeToTopics (setConnected s true) else s
  | on_error => if client s then setConnected s false else s
  | on_close => if client s then setConnected s false else s
  | on_reconnect => s
  | publish topic message =>
      if isConnected s && client s
      then mk (client s) (isConnected s) (subscribed s)
             (published s ++ [(topic, message)])
      else s
  | disconnect => if client s then setConnected s false else s
  end.

Definition actAll (actions : list Action) (s : t) : t := fold_left act actions s.

End Connection.

(* ================================================================== *)
(** * Vocabulary of the properties *)

(** The entries of the [alerts] array raised for one metric. *)
Definition alertsFor (metric : string) (equipment : Equipment.t)
  (sensorReading : SensorReading.t) : list AlertData.t :=
  filter (fun a => String.eqb (Metadata.sensorType (AlertData.metadata a)) metric)
    (firedAlerts equipment sensorReading).

(** The metric types with a [case] in [processSensorData]. *)
Definition supportedTypes : list string :=
  ["temperature"; "vibration"; "pressure"; "humidity"; "electrical";
   "performance"]%string.

Definition isSupported (sensorType : option string) : bool :=
  match sensorType with
  | Some ty => existsb (String.eqb ty) supportedTypes
  | None => false
  end.

(** The segments of a topic [sensors/{equipmentId}/{metricType}]. *)
Definition equipmentIdOf (topic : string) : option string :=
  nth_error (split "/" topic) 1.

Definition sensorTypeOf (topic : string) : option string :=
  nth_error (split "/" topic) 2.

(** A reading that carries the given columns and nothing else. *)
Definition readingWith (temperature vibration pressure : Field)
  : SensorReading.t :=
  SensorReading.mk 0 "eq-1" 0 temperature vibration pressure
    None None None None None None.

(** A payload [{value: v}]. *)
Definition valuePayload (v : float) : Message :=
  JsonText (JsonObject
    (SensorData.mk (number v) undefined undefined undefined undefined
       undefined undefined undefined undefined None stamp_undefined)).

(** The default profile of the [Equipment] model: maxima 80, 10 and 100,
    minimum pressure 10. *)
Definition eq1 : Equipment.t :=
  Equipment.mk "eq-1" "Pump" (Some 80%float) (Some 10%float)
    (Some 100%float) (Some 10%float).

(** A profile whose pressure band is inverted: minimum 200 above maximum
    100. *)
Definition invertedBand : Equipment.t :=
  Equipment.mk "eq-1" "Pump" (Some 80%float) (Some 10%float)
    (Some 100%float) (Some 200%float).

(** The number of active alerts with a given equipment, type and title. *)
Definition activeCount (db : DB) (equipmentId : string) (type : AlertType)
  (title : string) : nat :=
  List.length (filter (alertKey equipmentId type title active) (alerts db)).

(** At most one active alert per (equipment, type, title). *)
Definition uniqueActive (db : DB) : Prop :=
  forall equipmentId type title, activeCount db equipmentId type title <= 1.

(** What the [for] loop of [checkForAlerts] leaves in the store when nothing
    else runs in between. *)
Definition createAlert (db : DB) (alertData : AlertData.t) : DB :=
  match find (alertKey (AlertData.equipmentId alertData)
                (AlertData.type alertData) (AlertData.title alertData) active)
          (alerts db) with
  | Some _ => db
  | None =>
      mkDB (equipment db) (sensorReadings db)
        (alerts db ++ [newAlert (nextId db) alertData]) (S (nextId db))
        (findOneChoice db)
  end.

Definition createAlerts (alertData : list AlertData.t) (db : DB) : DB :=
  fold_left createAlert alertData db.

(** What "update the reading in the window or create a new one" leaves in
    the store, with the instance it hands on. *)
Definition storeReading (db : DB) (u : UpdateData.t) (ts : Z)
  : SensorReading.t * DB :=
  match findReading db (UpdateData.equipmentId u) (ts - 5000) (ts + 5000) with
  | Some r =>
      (applyUpdate r u ts,
       mkDB (equipment db)
         (map (updateRow (SensorReading.id r) u ts) (sensorReadings db))
         (alerts db) (nextId db) (findOneChoice db))
  | None =>
      (newReading (nextId db) u ts,
       mkDB (equipment db)
         (sensorReadings db ++ [newReading (nextId db) u ts])
         (alerts db) (S (nextId db)) (findOneChoice db))
  end.

(** A clock reading whose 5-second window consists of valid dates. *)
Definition validClock (t : Z) : Prop :=
  (Z.abs t <= 8640000000000000 - 5000)%Z.

(** A date parser that knows one timestamp, ten seconds after the epoch. *)
Definition sampleDates (s : string) : option Z :=
  if String.eqb s "1970-01-01T00:00:10.000Z" then Some 10000%Z else None.

(** A store with the default profile and no readings or alerts yet. *)
Definition freshStore : DB := mkDB [eq1] [] [] 0 (fun _ => 0).

(** Two temperature messages for the same equipment, both above the
    maximum of 80, whose handlers are in flight together. *)
Definition twoHotReadings : list (Async unit) :=
  [ handleMessage sampleDates "sensors/eq-1/temperature" (valuePayload 82) 1000;
    handleMessage sampleDates "sensors/eq-1/temperature" (valuePayload 83) 1001 ].

(** The ORM calls of the two handlers complete in alternation. *)
Definition alternating : list nat := [0; 1; 0; 1; 0; 1; 0; 1; 0; 1].

(** The first handler completes before the second starts. *)
Definition oneAfterTheOther : list nat := [0; 0; 0; 0; 0; 1; 1; 1; 1; 1].

(** Invariants of the store under one handler run to completion. *)
Definition preserves {A} (P : DB -> Prop) (m : Async A) : Prop :=
  forall db, P db -> P (snd (run m db)).

(** Handling a sequence of messages, each to completion before the next:
    a message is a topic, a payload and the clock reading at receipt. *)
Definition handleAll (Date_parse : string -> option Z)
  (messages : list (string * Message * Z)) (db : DB) : DB :=
  fold_left
    (fun db m =>
       snd (run (handleMessage Date_parse (fst (fst m)) (snd (fst m)) (snd m)) db))
    messages db.

(** The [updateData] of a temperature message that carries [v]. *)
Definition temperatureUpdate (equipmentId : string) (ts : Z) (v : Value)
  : UpdateData.t :=
  UpdateData.mk equipmentId (Some ts) (Some v)
    None None None None None None None None.

(** A temperature message [{value: v}] for equipment [eq-1], received at
    [now]. *)
Definition temperatureAt (v : float) (now : Z) : string * Message * Z :=
  ("sensors/eq-1/temperature"%string, valuePayload v, now).

(** No stored reading carries a vibration or a pressure. *)
Definition onlyTemperatures (db : DB) : Prop :=
  forall r, In r (sensorReadings db) ->
            SensorReading.vibration r = None /\ SensorReading.pressure r = None.

(** The key of the high-temperature rule for equipment [eq-1]. *)
Definition hotKey : Alert.t -> bool :=
  alertKey "eq-1" critical "High Temperature Alert" active.

(** The stream of the scenario, one reading per second. *)
Definition scenarioStream : list (string * Message * Z) :=
  [ temperatureAt 82 1000; temperatureAt 83 2000; temperatureAt 81 3000;
    temperatureAt 79 4000; temperatureAt 78 5000; temperatureAt 77 6000 ].

(** The state a temperature stream is followed through: the profile [e] is
    found, the readings carry temperatures only, and the alert table is
    [A]. *)
Definition following (e : Equipment.t) (db : DB) (A : list Alert.t) : Prop :=
  findByPk db (Some "eq-1"%string) = Some e
  /\ onlyTemperatures db
  /\ alerts db = A.

(** A pressure message [{value: v}] for equipment [eq-1], received at
    [now]. *)
Definition pressureAt (v : float) (now : Z) : string * Message * Z :=
  ("sensors/eq-1/pressure"%string, valuePayload v, now).

(** The [updateData] of a pressure message that carries [v]. *)
Definition pressureUpdate (equipmentId : string) (ts : Z) (v : Value)
  : UpdateData.t :=
  UpdateData.mk equipmentId (Some ts) None None (Some v)
    None None None None None None.

Definition pressureKey : Alert.t -> bool :=
  alertKey "eq-1" warning "Pressure Out of Range" active.

Definition vibrationKey : Alert.t -> bool :=
  alertKey "eq-1" warning "High Vibration Alert" active.

(** A store in which equipment [eq-1] has a reading of 90 degrees taken at
    1000 ms, whose high-temperature alert an operator has acknowledged: no
    alert is active. *)
Definition acknowledgedStore : DB :=
  mkDB [eq1]
    [ SensorReading.mk 0 "eq-1" 1000 (Some 90%float) None None
        None None None None None None ]
    [ Alert.mk 1 "eq-1" critical "High Temperature Alert"
        (TemperatureExceeds (Some 90%float) (Some 80%float)) acknowledged
        (Metadata.mk "temperature" (Some 90%float) (Some (Some 80%float))
           None None 0) ]
    2 (fun _ => 0).










(** At most one reading of the equipment lies within 5 seconds of [t]. *)
Definition atMostOneInWindow (db : DB) (equipmentId : string) (t : Z) : Prop :=
  List.length
    (filter (in_window equipmentId (t - 5000) (t + 5000)) (sensorReadings db))
  <= 1.



(** A temperature payload [{value: 95, timestamp:
    "1970-01-01T00:00:10.000Z"}]. *)
Definition stampedHot : SensorData.t :=
  SensorData.mk (number 95) undefined undefined undefined undefined
    undefined undefined undefined undefined None
    (stamp_string "1970-01-01T00:00:10.000Z").

(** A second machine, and a store in which both machines have a reading
    and the second one an active vibration alert. *)
Definition eq2 : Equipment.t :=
  Equipment.mk "eq-2" "Press" (Some 80%float) (Some 10%float)
    (Some 100%float) (Some 10%float).

Definition twoMachinesStore : DB :=
  mkDB [eq1; eq2]
    [ SensorReading.mk 0 "eq-1" 1000 (Some 70%float) None None
        None None None None None None;
      SensorReading.mk 1 "eq-2" 1000 (Some 60%float) (Some 12%float) None
        None None None None None None ]
    [ Alert.mk 2 "eq-2" warning "High Vibration Alert"
        (VibrationExceeds (Some 12%float) (Some 10%float)) active
        (Metadata.mk "vibration" (Some 12%float) (Some (Some 10%float))
           None None 1) ]
    3 (fun _ => 0).

(** A vibration payload [{value: 4, timestamp: "1970-01-01T00:00:10.000Z"}]
    and a payload [{value: 4}] without timestamp. *)
Definition stampedVibration : SensorData.t :=
  SensorData.mk (number 4) undefined undefined undefined undefined
    undefined undefined undefined undefined None
    (stamp_string "1970-01-01T00:00:10.000Z").

Definition unstampedVibration : SensorData.t :=
  SensorData.mk (number 4) undefined undefined undefined undefined
    undefined undefined undefined undefined None stamp_undefined.

(** A store in which equipment [eq-1] has one reading, a temperature of 70
    taken at 12000 ms. *)
Definition oneReadingStore : DB :=
  mkDB [eq1]
    [ SensorReading.mk 0 "eq-1" 12000 (Some 70%float) None None
        None None None None None None ]
    [] 1 (fun _ => 0).

(** An asynchronous program that ends by returning whatever its ORM calls
    resolve to or reject with. *)
Inductive settles {A : Type} : Async A -> Prop :=
| settles_Return (a : A) : settles (Return a)
| settles_Await {X : Type} (op : DbOp X) (k : Result X -> Async A) :
    (forall r, settles (k r)) -> settles (Await op k).

(** No call in flight has ended in a thrown error. *)
Definition noneThrown (calls : list (Async unit)) : Prop :=
  forall e, ~ In (Throw e) calls.

(** Reading rows have distinct ids. *)
Definition distinctReadingIds (db : DB) : Prop :=
  NoDup (map SensorReading.id (sensorReadings db)).

(** The readings and the alerts of the other equipment. *)
Definition readingsOfOthers (equipmentId : string) (db : DB)
  : list SensorReading.t :=
  filter (fun r => negb (String.eqb (SensorReading.equipmentId r) equipmentId))
    (sensorReadings db).

Definition alertsOfOthers (equipmentId : string) (db : DB) : list Alert.t :=
  filter (fun a => negb (String.eqb (Alert.equipmentId a) equipmentId))
    (alerts db).

(** Reading ids are distinct and were all handed out before [nextId]. *)
Definition freshReadingIds (db : DB) : Prop :=
  distinctReadingIds db
  /\ Forall (fun r => SensorReading.id r < nextId db) (sensorReadings db).

(** The store after a message whose payload is the object [data] and whose
    timestamp is the date [ts], when no other handler runs in between. *)
Definition handled (topic : string) (data : SensorData.t) (ts : Date) (db : DB)
  : DB :=
  match ts, equipmentIdOf topic with
  | Some t, Some equipmentId =>
      match findByPk db (Some equipmentId),
            TimeClip (t - 5000), TimeClip (t + 5000),
            mapSensorType (sensorTypeOf topic) data equipmentId (Some t) with
      | Some e, Some _, Some _, Some u =>
          createAlerts (firedAlerts e (fst (storeReading db u t)))
            (snd (storeReading db u t))
      | _, _, _, _ => db
      end
  | _, _ => db
  end.

(** The number of equipment a distribution has counted. *)
Definition counted (h : HealthDistribution.t) : nat :=
  HealthDistribution.excellent h + HealthDistribution.good h
  + HealthDistribution.fair h + HealthDistribution.poor h.

(** A reading far out of every band of the default profile, and one well
    inside. *)
Definition worstReading : SensorReading.t :=
  readingWith (Some 120%float) (Some 30%float) (Some 500%float).

Definition calmReading : SensorReading.t :=
  readingWith (Some 40%float) (Some 2%float) (Some 50%float).

(** The topic a sensor of type [sensorType] on equipment [equipmentId]
    publishes on; with ["+"] for the id it is a subscription pattern. *)
Definition topicFor (equipmentId sensorType : string) : string :=
  String.append "sensors/"
    (String.append equipmentId (String "/"%char sensorType)).

Fixpoint hasSlash (s : string) : bool :=
  match s with
  | EmptyString => false
  | String c rest => Ascii.eqb c "/"%char || hasSlash rest
  end.

(** A history of one reading with temperature and vibration 0, and a
    profile whose maxima are 0. *)
Definition flatHistory : list SensorReading.t :=
  [readingWith (Some 0%float) (Some 0%float) None].

Definition zeroProfile : Equipment.t :=
  Equipment.mk "eq-1" "Pump" (Some 0%float) (Some 0%float)
    (Some 100%float) (Some 10%float).

(* ================================================================== *)
(** * Facts about binary64 comparisons and division *)

Section FloatFacts.

Local Open Scope float_scope.

Lemma SFltb_irrefl (f : spec_float) : SFltb f f = false.
Proof.
  unfold SFltb.
  destruct f as [s | s | | s m e]; try (destruct s); simpl; try reflexivity.
  - rewrite Z.compare_refl, Pos.compare_cont_refl. reflexivity.
  - rewrite Z.compare_refl, Pos.compare_cont_refl. reflexivity.
Qed.

Lemma ltb_irrefl (x : float) : (x <? x) = false.
Proof. rewrite ltb_spec. apply SFltb_irrefl. Qed.

Lemma nan_div (y : float) : nan / y = nan.
Proof.
  apply Prim2SF_inj. rewrite div_spec.
  change (Prim2SF nan) with S754_nan.
  reflexivity.
Qed.

Lemma gt_same (v : Field) : gt v v = false.
Proof. unfold gt. apply ltb_irrefl. Qed.

Lemma lt_same (v : Field) : lt v v = false.
Proof. unfold lt. apply ltb_irrefl. Qed.

End FloatFacts.

(* ================================================================== *)
(** * The two health scores *)

(** C8: the health score of the analytics route module and the health score
    of the equipment route module return the same score on every readings
    list and every equipment profile. *)
Theorem calculateHealthScore_copies_agree
  (readings : option (list SensorReading.t)) (equipment : Equipment.t) :
  AnalyticsRoutes.calculateHealthScore readings equipment
  = EquipmentRoutes.calculateHealthScore readings equipment.
Proof.
  destruct readings as [[| latest rest] |]; reflexivity.
Qed.

(* ================================================================== *)
(** * Predictions over an empty history *)

Section EmptyHistory.

Local Open Scope float_scope.

Variable momentAddDays : float -> Z.

Lemma average_empty (metric : SensorReading.t -> Field) :
  EquipmentRoutes.average metric [] = nan.
Proof. reflexivity. Qed.

Lemma failureProbabilityOf_empty (equipment : Equipment.t) :
  EquipmentRoutes.failureProbabilityOf [] equipment = nan.
Proof.
  unfold EquipmentRoutes.failureProbabilityOf.
  rewrite !average_empty, !nan_div. reflexivity.
Qed.

(** C10: with an empty 30-day history the two averages and the failure
    probability are NaN (0 divided by 0), for every equipment profile, and
    [generatePredictions] still returns a result, with risk level ['low']
    and confidence 85. *)
Theorem generatePredictions_empty_history (equipment : Equipment.t) :
  EquipmentRoutes.average SensorReading.temperature [] = nan
  /\ EquipmentRoutes.average SensorReading.vibration [] = nan
  /\ EquipmentRoutes.failureProbabilityOf [] equipment = nan
  /\ EquipmentRoutes.generatePredictions momentAddDays [] equipment
     = Predictions.mk nan nan (momentAddDays nan) low 85
         [ Factor.mk "Temperature Trend" nan "increasing";
           Factor.mk "Vibration Pattern" nan "stable" ].
Proof.
  repeat split; try reflexivity.
  - apply failureProbabilityOf_empty.
  - unfold EquipmentRoutes.generatePredictions.
    rewrite failureProbabilityOf_empty, !average_empty, !nan_div.
    reflexivity.
Qed.

End EmptyHistory.

(* ================================================================== *)
(** * The threshold tests of [checkForAlerts] *)

Section Thresholds.

Variables (equipment : Equipment.t) (sensorReading : SensorReading.t).

Lemma alertsFor_temperature :
  alertsFor "temperature" equipment sensorReading
  = if temperatureFires equipment sensorReading
    then [temperatureAlert equipment sensorReading] else [].
Proof.
  unfold alertsFor, firedAlerts.
  destruct (temperatureFires _ _), (vibrationFires _ _), (pressureFires _ _);
    reflexivity.
Qed.

Lemma alertsFor_vibration :
  alertsFor "vibration" equipment sensorReading
  = if vibrationFires equipment sensorReading
    then [vibrationAlert equipment sensorReading] else [].
Proof.
  unfold alertsFor, firedAlerts.
  destruct (temperatureFires _ _), (vibrationFires _ _), (pressureFires _ _);
    reflexivity.
Qed.

Lemma alertsFor_pressure :
  alertsFor "pressure" equipment sensorReading
  = if pressureFires equipment sensorReading
    then [pressureAlert equipment sensorReading] else [].
Proof.
  unfold alertsFor, firedAlerts.
  destruct (temperatureFires _ _), (vibrationFires _ _), (pressureFires _ _);
    reflexivity.
Qed.

(** A falsy metric never passes its guard. *)
Lemma falsy_temperature :
  truthy (SensorReading.temperature sensorReading) = false ->
  alertsFor "temperature" equipment sensorReading = [].
Proof.
  intros H. rewrite alertsFor_temperature. unfold temperatureFires.
  rewrite H. reflexivity.
Qed.

Lemma falsy_vibration :
  truthy (SensorReading.vibration sensorReading) = false ->
  alertsFor "vibration" equipment sensorReading = [].
Proof.
  intros H. rewrite alertsFor_vibration. unfold vibrationFires.
  rewrite H. reflexivity.
Qed.

Lemma falsy_pressure :
  truthy (SensorReading.pressure sensorReading) = false ->
  alertsFor "pressure" equipment sensorReading = [].
Proof.
  intros H. rewrite alertsFor_pressure. unfold pressureFires.
  rewrite H. reflexivity.
Qed.

(** C3, as the code has it: the comparisons are strict.  A temperature or
    vibration equal to its maximum raises no alert; a pressure equal to
    [maxPressure] raises none unless it is below [minPressure], and a
    pressure equal to [minPressure] raises none unless it is above
    [maxPressure]; an absent metric raises no alert for that metric. *)
Theorem threshold_comparisons_strict :
  (forall x, SensorReading.temperature sensorReading = Some x ->
             Equipment.maxTemperature equipment = Some x ->
             alertsFor "temperature" equipment sensorReading = [])
  /\ (forall x, SensorReading.vibration sensorReading = Some x ->
                Equipment.maxVibration equipment = Some x ->
                alertsFor "vibration" equipment sensorReading = [])
  /\ (forall x, SensorReading.pressure sensorReading = Some x ->
                Equipment.maxPressure equipment = Some x ->
                lt (Some x) (Equipment.minPressure equipment) = false ->
                alertsFor "pressure" equipment sensorReading = [])
  /\ (forall x, SensorReading.pressure sensorReading = Some x ->
                Equipment.minPressure equipment = Some x ->
                gt (Some x) (Equipment.maxPressure equipment) = false ->
                alertsFor "pressure" equipment sensorReading = [])
  /\ (SensorReading.temperature sensorReading = None ->
      alertsFor "temperature" equipment sensorReading = [])
  /\ (SensorReading.vibration sensorReading = None ->
      alertsFor "vibration" equipment sensorReading = [])
  /\ (SensorReading.pressure sensorReading = None ->
      alertsFor "pressure" equipment sensorReading = []).
Proof.
  repeat split.
  - intros x Hr He. rewrite alertsFor_temperature. unfold temperatureFires.
    rewrite Hr, He, gt_same, andb_false_r. reflexivity.
  - intros x Hr He. rewrite alertsFor_vibration. unfold vibrationFires.
    rewrite Hr, He, gt_same, andb_false_r. reflexivity.
  - intros x Hr He Hmin. rewrite alertsFor_pressure. unfold pressureFires.
    rewrite Hr, He, gt_same, Hmin. destruct (truthy (Some x)); reflexivity.
  - intros x Hr He Hmax. rewrite alertsFor_pressure. unfold pressureFires.
    rewrite Hr, He, lt_same, Hmax. destruct (truthy (Some x)); reflexivity.
  - intros Hr. apply falsy_temperature. rewrite Hr. reflexivity.
  - intros Hr. apply falsy_vibration. rewrite Hr. reflexivity.
  - intros Hr. apply falsy_pressure. rewrite Hr. reflexivity.
Qed.

(** C9: a metric value of exactly 0 is falsy, so it is treated like an
    absent one: a pressure of 0 raises no out-of-range alert whatever
    [minPressure] is, and a temperature or vibration of 0 raises no alert,
    for every equipment profile. *)
Theorem zero_metric_raises_no_alert :
  (SensorReading.pressure sensorReading = Some 0%float ->
   alertsFor "pressure" equipment sensorReading = [])
  /\ (SensorReading.temperature sensorReading = Some 0%float ->
      alertsFor "temperature" equipment sensorReading = [])
  /\ (SensorReading.vibration sensorReading = Some 0%float ->
      alertsFor "vibration" equipment sensorReading = []).
Proof.
  repeat split; intros Hr.
  - apply falsy_pressure. rewrite Hr. reflexivity.
  - apply falsy_temperature. rewrite Hr. reflexivity.
  - apply falsy_vibration. rewrite Hr. reflexivity.
Qed.

End Thresholds.

Lemma threshold_comparisons_strict_witness :
  alertsFor "temperature" eq1 (readingWith (Some 80%float) None None) = []
  /\ alertsFor "vibration" eq1 (readingWith None (Some 10%float) None) = []
  /\ alertsFor "pressure" eq1 (readingWith None None (Some 100%float)) = []
  /\ alertsFor "pressure" eq1 (readingWith None None (Some 10%float)) = []
  /\ alertsFor "temperature" eq1 (readingWith None (Some 11%float) None) = []
  /\ alertsFor "vibration" eq1 (readingWith (Some 81%float) None None) = []
  /\ alertsFor "pressure" eq1 (readingWith (Some 81%float) None None) = [].
Proof.
  refine (conj _ (conj _ (conj _ (conj _ (conj _ (conj _ _)))))).
  - apply (proj1 (threshold_comparisons_strict eq1
                    (readingWith (Some 80%float) None None)) 80%float);
      reflexivity.
  - apply (proj1 (proj2 (threshold_comparisons_strict eq1
                    (readingWith None (Some 10%float) None))) 10%float);
      reflexivity.
  - apply (proj1 (proj2 (proj2 (threshold_comparisons_strict eq1
                    (readingWith None None (Some 100%float))))) 100%float);
      reflexivity.
  - apply (proj1 (proj2 (proj2 (proj2 (threshold_comparisons_strict eq1
                    (readingWith None None (Some 10%float)))))) 10%float);
      reflexivity.
  - apply (proj1 (proj2 (proj2 (proj2 (proj2 (threshold_comparisons_strict eq1
                    (readingWith None (Some 11%float) None)))))));
      reflexivity.
  - apply (proj1 (proj2 (proj2 (proj2 (proj2 (proj2
             (threshold_comparisons_strict eq1
                (readingWith (Some 81%float) None None))))))));
      reflexivity.
  - apply (proj2 (proj2 (proj2 (proj2 (proj2 (proj2
             (threshold_comparisons_strict eq1
                (readingWith (Some 81%float) None None))))))));
      reflexivity.
Defined.

(** C3 as the specification words it fails on a profile whose pressure band
    is inverted: a pressure equal to [maxPressure] = 100 is below
    [minPressure] = 200 and raises the out-of-range alert. *)
Lemma pressure_at_max_fires_on_inverted_band :
  SensorReading.pressure (readingWith None None (Some 100%float))
  = Equipment.maxPressure invertedBand
  /\ alertsFor "pressure" invertedBand (readingWith None None (Some 100%float))
     = [pressureAlert invertedBand (readingWith None None (Some 100%float))].
Proof. split; reflexivity. Qed.

(** A pressure of 0 lies below [minPressure] = 10 and still raises
    nothing. *)
Lemma zero_metric_raises_no_alert_witness :
  lt (Some 0%float) (Equipment.minPressure eq1) = true
  /\ alertsFor "pressure" eq1 (readingWith None None (Some 0%float)) = []
  /\ alertsFor "temperature" eq1 (readingWith (Some 0%float) None None) = []
  /\ alertsFor "vibration" eq1 (readingWith None (Some 0%float) None) = [].
Proof.
  refine (conj _ (conj _ (conj _ _))).
  - reflexivity.
  - apply (proj1 (zero_metric_raises_no_alert eq1
                    (readingWith None None (Some 0%float)))).
    reflexivity.
  - apply (proj1 (proj2 (zero_metric_raises_no_alert eq1
                    (readingWith (Some 0%float) None None)))).
    reflexivity.
  - apply (proj2 (proj2 (zero_metric_raises_no_alert eq1
                    (readingWith None (Some 0%float) None)))).
    reflexivity.
Defined.

(* ================================================================== *)
(** * Running asynchronous programs *)

Lemma run_bind {A B} (m : Async A) (f : A -> Async B) (db : DB) :
  run (bind m f) db
  = match run m db with
    | (Ok a, db') => run (f a) db'
    | (Err e, db') => (Err e, db')
    end.
Proof.
  revert db. induction m as [a | e | X op k IH]; intros db; simpl.
  - reflexivity.
  - reflexivity.
  - destruct (exec op db) as [r db']. apply IH.
Qed.

Lemma run_try_catch {A} (m : Async A) (h : Error -> Async A) (db : DB) :
  run (try_catch m h) db
  = match run m db with
    | (Ok a, db') => (Ok a, db')
    | (Err e, db') => run (h e) db'
    end.
Proof.
  revert db. induction m as [a | e | X op k IH]; intros db; simpl.
  - reflexivity.
  - reflexivity.
  - destruct (exec op db) as [r db']. apply IH.
Qed.

Lemma run_await {X} (op : DbOp X) (db : DB) : run (await op) db = exec op db.
Proof.
  unfold await. simpl. destruct (exec op db) as [[x | e] db']; reflexivity.
Qed.

(** A [try] whose [catch] only returns never throws. *)
Lemma run_try_catch_return {A} (m : Async A) (a0 : A) (db : DB) :
  exists a, fst (run (try_catch m (fun _ => Return a0)) db) = Ok a.
Proof.
  rewrite run_try_catch. destruct (run m db) as [[a | e] db']; simpl; eauto.
Qed.

(** What [findOne] returns is a row of the table that matches, whichever
    row the database picks; it returns nothing only when no row matches. *)
Lemma findReading_some (db : DB) (equipmentId : string) (gte lte : Z)
  (r : SensorReading.t) :
  findReading db equipmentId gte lte = Some r ->
  In r (sensorReadings db) /\ in_window equipmentId gte lte r = true.
Proof.
  unfold findReading.
  set (matching := filter (in_window equipmentId gte lte) (sensorReadings db)).
  intros H. apply filter_In. fold matching.
  destruct (nth_error matching (findOneChoice db matching)) as [r' |] eqn:N.
  - injection H as <-. apply nth_error_In in N. exact N.
  - destruct matching as [| r' l]; [discriminate H |].
    injection H as <-. left. reflexivity.
Qed.

Lemma findReading_none (db : DB) (equipmentId : string) (gte lte : Z) :
  findReading db equipmentId gte lte = None ->
  forall r, In r (sensorReadings db) -> in_window equipmentId gte lte r = false.
Proof.
  unfold findReading.
  set (matching := filter (in_window equipmentId gte lte) (sensorReadings db)).
  intros H r Hin.
  destruct (in_window equipmentId gte lte r) eqn:W; [| reflexivity].
  assert (Hm : In r matching) by (apply filter_In; split; assumption).
  destruct (nth_error matching (findOneChoice db matching)); [discriminate H |].
  destruct matching; [destruct Hm | discriminate H].
Qed.

(** The row [findOne] returns depends on the reading table and on the
    database's choice only. *)
Lemma findReading_ext (db db' : DB) (equipmentId : string) (gte lte : Z) :
  sensorReadings db' = sensorReadings db ->
  findOneChoice db' = findOneChoice db ->
  findReading db' equipmentId gte lte = findReading db equipmentId gte lte.
Proof. unfold findReading. intros -> ->. reflexivity. Qed.

(* ================================================================== *)
(** * Messages that are dropped *)

Section Dropped.

Variable Date_parse : string -> option Z.

Lemma mapSensorType_unsupported (sensorType : option string)
  (data : SensorData.t) (equipmentId : string) (timestamp : Date) :
  isSupported sensorType = false ->
  mapSensorType sensorType data equipmentId timestamp = None.
Proof.
  destruct sensorType as [ty |]; [| reflexivity].
  unfold isSupported, supportedTypes. simpl. intros H.
  repeat (apply orb_false_elim in H; destruct H as [?E H]).
  unfold mapSensorType. rewrite E, E0, E1, E2, E3, E4. reflexivity.
Qed.

Lemma processSensorData_unsupported (equipmentId : string)
  (sensorType : option string) (data : Json) (now : Z) (db : DB) :
  isSupported sensorType = false ->
  run (processSensorData Date_parse equipmentId sensorType data now) db
  = (Ok None, db).
Proof.
  intros H. unfold processSensorData. destruct data as [| d]; simpl.
  - reflexivity.
  - rewrite (mapSensorType_unsupported _ _ _ _ H).
    destruct (Date_shift (timestampOf Date_parse d now) (-5000)) as [lo |];
      [destruct (Date_shift (timestampOf Date_parse d now) 5000) as [hi |] |];
      reflexivity.
Qed.

(** [handleMessage] never throws: its body is one [try] whose [catch] only
    logs. *)
Lemma handleMessage_returns (topic : string) (message : Message) (now : Z)
  (db : DB) :
  fst (run (handleMessage Date_parse topic message now) db) = Ok tt.
Proof.
  destruct (run_try_catch_return
              (data <- JSON_parse message ;;
               equipment <- await (Equipment_findByPk (nth_error (split "/" topic) 1)) ;;
               match equipment, nth_error (split "/" topic) 1 with
               | Some equipment, Some equipmentId =>
                   sensorReading <- processSensorData Date_parse equipmentId
                                      (nth_error (split "/" topic) 2) data now ;;
                   match sensorReading with
                   | Some sensorReading => checkForAlerts equipment sensorReading
                   | None => Return tt
                   end
               | _, _ => Return tt
               end) tt db) as [[] H].
  exact H.
Qed.

(** C4: a message whose payload is not JSON, and a message whose metric
    type is outside the supported set, is dropped: [handleMessage] returns
    normally and leaves every table as it was (no reading created or
    updated, no alert created). *)
Theorem undecodable_or_unsupported_is_dropped (topic : string)
  (message : Message) (now : Z) (db : DB) :
  message = NotJson \/ isSupported (sensorTypeOf topic) = false ->
  run (handleMessage Date_parse topic message now) db = (Ok tt, db).
Proof.
  intros [-> | H].
  - reflexivity.
  - unfold handleMessage. rewrite run_try_catch.
    destruct message as [| v]; [reflexivity |].
    cbn [run bind try_catch JSON_parse await exec].
    destruct (findByPk db (nth_error (split "/" topic) 1)) as [e |];
      [| reflexivity].
    destruct (nth_error (split "/" topic) 1) as [equipmentId |];
      [| reflexivity].
    rewrite run_bind, (processSensorData_unsupported _ _ _ _ _ H).
    reflexivity.
Qed.

(** C5: a message whose topic names an equipment id with no [Equipment]
    row is dropped: no reading is stored, no alert is created and the
    [Equipment] table is unchanged. *)
Theorem unknown_equipment_is_dropped (topic : string) (message : Message)
  (now : Z) (db : DB) :
  findByPk db (equipmentIdOf topic) = None ->
  run (handleMessage Date_parse topic message now) db = (Ok tt, db).
Proof.
  unfold equipmentIdOf. intros H.
  unfold handleMessage. rewrite run_try_catch.
  destruct message as [| v]; [reflexivity |].
  cbn [run bind try_catch JSON_parse await exec].
  rewrite H. reflexivity.
Qed.

End Dropped.

Lemma undecodable_or_unsupported_is_dropped_witness :
  run (handleMessage sampleDates "sensors/eq-1/temperature" NotJson 1000)
    freshStore = (Ok tt, freshStore)
  /\ run (handleMessage sampleDates "sensors/eq-1/flow" (valuePayload 5) 1000)
       freshStore = (Ok tt, freshStore).
Proof.
  split.
  - apply undecodable_or_unsupported_is_dropped. left. reflexivity.
  - apply undecodable_or_unsupported_is_dropped. right. reflexivity.
Defined.

Lemma unknown_equipment_is_dropped_witness :
  run (handleMessage sampleDates "sensors/eq-9/temperature" (valuePayload 95)
         1000) freshStore = (Ok tt, freshStore).
Proof. apply unknown_equipment_is_dropped. reflexivity. Defined.

(* ================================================================== *)
(** * De-duplication of active alerts *)

Section Dedup.

Variable Date_parse : string -> option Z.

Lemma preserves_Return {A} (P : DB -> Prop) (a : A) : preserves P (Return a).
Proof. intros db H. exact H. Qed.

Lemma preserves_Throw {A} (P : DB -> Prop) (e : Error) :
  preserves P (@Throw A e).
Proof. intros db H. exact H. Qed.

Lemma preserves_bind {A B} (P : DB -> Prop) (m : Async A) (f : A -> Async B) :
  preserves P m -> (forall a, preserves P (f a)) -> preserves P (bind m f).
Proof.
  intros Hm Hf db H. rewrite run_bind. specialize (Hm db H).
  destruct (run m db) as [[a | e] db']; simpl in *.
  - apply Hf, Hm.
  - exact Hm.
Qed.

Lemma preserves_try_catch {A} (P : DB -> Prop) (m : Async A)
  (h : Error -> Async A) :
  preserves P m -> (forall e, preserves P (h e)) -> preserves P (try_catch m h).
Proof.
  intros Hm Hh db H. rewrite run_try_catch. specialize (Hm db H).
  destruct (run m db) as [[a | e] db']; simpl in *.
  - exact Hm.
  - apply Hh, Hm.
Qed.

Lemma preserves_await {X} (P : DB -> Prop) (op : DbOp X) :
  (forall db, P db -> P (snd (exec op db))) -> preserves P (await op).
Proof. intros Hop db H. rewrite run_await. apply Hop, H. Qed.

Lemma preserves_forEach {X} (P : DB -> Prop) (l : list X)
  (body : X -> Async unit) :
  (forall x, preserves P (body x)) -> preserves P (forEach l body).
Proof.
  intros Hb. induction l as [| x l IH]; simpl.
  - apply preserves_Return.
  - apply preserves_bind; [apply Hb | intros _; exact IH].
Qed.

Lemma run_createIfAbsent (alertData : AlertData.t) (db : DB) :
  run (createIfAbsent alertData) db = (Ok tt, createAlert db alertData).
Proof.
  unfold createIfAbsent, createAlert. simpl.
  destruct (find _ (alerts db)); reflexivity.
Qed.

Lemma run_checkForAlerts (equipment : Equipment.t)
  (sensorReading : SensorReading.t) (db : DB) :
  run (checkForAlerts equipment sensorReading) db
  = (Ok tt, createAlerts (firedAlerts equipment sensorReading) db).
Proof.
  unfold checkForAlerts, createAlerts.
  generalize (firedAlerts equipment sensorReading) as l. intros l. revert db.
  induction l as [| d l IH]; intros db; cbn [forEach fold_left].
  - reflexivity.
  - rewrite run_bind, run_createIfAbsent. apply IH.
Qed.

Lemma AlertType_eqb_eq (a b : AlertType) : AlertType_eqb a b = true -> a = b.
Proof. destruct a, b; simpl; congruence. Qed.

Lemma alertKey_inv (equipmentId : string) (type : AlertType) (title : string)
  (status : AlertStatus) (a : Alert.t) :
  alertKey equipmentId type title status a = true ->
  Alert.equipmentId a = equipmentId /\ Alert.type a = type
  /\ Alert.title a = title.
Proof.
  unfold alertKey. intros H.
  apply andb_prop in H as [H _]. apply andb_prop in H as [H Ht].
  apply andb_prop in H as [He Hy].
  apply String.eqb_eq in He, Ht. apply AlertType_eqb_eq in Hy. auto.
Qed.

Lemma find_none_filter {A} (f : A -> bool) (l : list A) :
  find f l = None -> filter f l = [].
Proof.
  induction l as [| x l IH]; simpl; [reflexivity |].
  destruct (f x); [discriminate | exact IH].
Qed.

Lemma createAlert_uniqueActive (db : DB) (alertData : AlertData.t) :
  uniqueActive db -> uniqueActive (createAlert db alertData).
Proof.
  intros H. unfold createAlert.
  destruct (find _ (alerts db)) eqn:F; [exact H |].
  intros equipmentId type title. unfold activeCount. simpl.
  rewrite filter_app, length_app. simpl.
  destruct (alertKey equipmentId type title active
              (newAlert (nextId db) alertData)) eqn:K.
  - apply alertKey_inv in K as (<- & <- & <-). simpl.
    rewrite (find_none_filter _ _ F). simpl. lia.
  - simpl. rewrite Nat.add_0_r. apply H.
Qed.

Lemma checkForAlerts_uniqueActive (equipment : Equipment.t)
  (sensorReading : SensorReading.t) :
  preserves uniqueActive (checkForAlerts equipment sensorReading).
Proof.
  apply preserves_forEach. intros d db H.
  rewrite run_createIfAbsent. apply createAlert_uniqueActive, H.
Qed.

(** The reading-side ORM calls do not touch the alert table. *)
Lemma processSensorData_uniqueActive (equipmentId : string)
  (sensorType : option string) (data : Json) (now : Z) :
  preserves uniqueActive
    (processSensorData Date_parse equipmentId sensorType data now).
Proof.
  unfold processSensorData.
  apply preserves_try_catch; [| intros; apply preserves_Return].
  apply preserves_bind;
    [destruct data; [apply preserves_Throw | apply preserves_Return] |].
  intros d. apply preserves_bind.
  - apply preserves_await. intros db H. simpl.
    destruct (Date_shift _ _); [destruct (Date_shift _ _) |]; exact H.
  - intros found. destruct (mapSensorType _ _ _ _) as [u |];
      [| apply preserves_Return].
    destruct found as [r |].
    + apply preserves_bind; [| intros; apply preserves_Return].
      apply preserves_await. intros db H. simpl.
      destruct (UpdateData.timestamp u); exact H.
    + apply preserves_bind; [| intros; apply preserves_Return].
      apply preserves_await. intros db H. simpl.
      destruct (UpdateData.timestamp u); exact H.
Qed.

(** When each handler runs to completion before the next one starts, the
    find-then-create of [checkForAlerts] keeps the alert table free of
    duplicate active alerts. *)
Lemma handleMessage_uniqueActive (topic : string) (message : Message)
  (now : Z) :
  preserves uniqueActive (handleMessage Date_parse topic message now).
Proof.
  unfold handleMessage.
  apply preserves_try_catch; [| intros; apply preserves_Return].
  apply preserves_bind;
    [destruct message; [apply preserves_Throw | apply preserves_Return] |].
  intros data. apply preserves_bind.
  - apply preserves_await. intros db H. exact H.
  - intros [e |]; [| apply preserves_Return].
    destruct (nth_error (split "/" topic) 1) as [equipmentId |];
      [| apply preserves_Return].
    apply preserves_bind; [apply processSensorData_uniqueActive |].
    intros [sr |]; [apply checkForAlerts_uniqueActive | apply preserves_Return].
Qed.

End Dedup.

(** A handler that is alone in flight ends in the store that [run] gives. *)
Lemma interleave_alone (m : Async unit) (db : DB) :
  exists n,
    interleave (repeat 0 n) [m] db
    = ([match fst (run m db) with
        | Ok a => Return a
        | Err e => Throw e
        end], snd (run m db)).
Proof.
  revert db. induction m as [a | e | X op k IH]; intros db.
  - exists 0. reflexivity.
  - exists 0. reflexivity.
  - simpl. destruct (exec op db) as [r db'] eqn:E.
    destruct (IH r db') as [n Hn]. exists (S n).
    cbn [repeat interleave resumeNth resume]. rewrite E. exact Hn.
Qed.

(** C1, at the failing input: two readings above the maximum for the same
    equipment, handled together.  Both handlers look for an active alert
    before either has created one, both find none, and both create one: the
    store ends with two active alerts for the same (equipment, type, title),
    whereas the same two messages handled one after the other leave one. *)
Theorem interleaved_handlers_duplicate_active_alert :
  uniqueActive freshStore
  /\ fst (interleave alternating twoHotReadings freshStore)
     = [Return tt; Return tt]
  /\ activeCount (snd (interleave alternating twoHotReadings freshStore))
       "eq-1" critical "High Temperature Alert" = 2
  /\ activeCount (snd (interleave oneAfterTheOther twoHotReadings freshStore))
       "eq-1" critical "High Temperature Alert" = 1.
Proof.
  split; [intros e t ti; unfold activeCount; simpl; lia |].
  split; [vm_compute; reflexivity |].
  split; vm_compute; reflexivity.
Qed.

(* ================================================================== *)
(** * The effect of a message that is stored *)

Section Stored.

Variable Date_parse : string -> option Z.

Lemma findByPk_id (db : DB) (k : string) (e : Equipment.t) :
  findByPk db (Some k) = Some e -> Equipment.id e = k.
Proof.
  simpl. intros H. apply find_some in H as [_ H].
  apply String.eqb_eq, H.
Qed.

Lemma TimeClip_valid (t : Z) :
  (Z.abs t <= 8640000000000000)%Z -> TimeClip t = Some t.
Proof.
  intros H. unfold TimeClip.
  destruct (Z.leb_spec (Z.abs t) 8640000000000000); [reflexivity | lia].
Qed.

Lemma Date_shift_valid (t : Z) :
  validClock t ->
  Date_shift (Some t) (-5000) = Some (t - 5000)%Z
  /\ Date_shift (Some t) 5000 = Some (t + 5000)%Z.
Proof.
  unfold validClock, Date_shift. intros H.
  split; apply TimeClip_valid; lia.
Qed.

Lemma mapSensorType_fields (sensorType : option string) (data : SensorData.t)
  (equipmentId : string) (timestamp : Date) (u : UpdateData.t) :
  mapSensorType sensorType data equipmentId timestamp = Some u ->
  UpdateData.equipmentId u = equipmentId /\ UpdateData.timestamp u = timestamp.
Proof.
  unfold mapSensorType. destruct sensorType as [ty |]; [| discriminate].
  repeat (match goal with
          | |- context [if ?b then _ else _] => destruct b
          end);
    intros H; inversion H; split; reflexivity.
Qed.

Lemma run_processSensorData_stored (equipmentId : string)
  (sensorType : option string) (data : SensorData.t) (now : Z) (db : DB)
  (u : UpdateData.t) (t : Z) :
  timestampOf Date_parse data now = Some t ->
  validClock t ->
  mapSensorType sensorType data equipmentId (Some t) = Some u ->
  run (processSensorData Date_parse equipmentId sensorType (JsonObject data) now) db
  = (Ok (Some (fst (storeReading db u t))), snd (storeReading db u t)).
Proof.
  intros Ht Hv Hu.
  destruct (mapSensorType_fields _ _ _ _ _ Hu) as [Hid Hts].
  destruct (Date_shift_valid t Hv) as [Hlo Hhi].
  unfold processSensorData. rewrite run_try_catch.
  cbn [keysOf bind]. rewrite Ht, Hu.
  change (run (Await ?op ?k) db) with (let (r, db') := exec op db in run (k r) db').
  cbn [exec]. rewrite Hlo, Hhi.
  cbn [run bind await exec].
  unfold storeReading. rewrite Hid.
  destruct (findReading db equipmentId (t - 5000) (t + 5000)) as [r |];
    cbn [run bind await exec]; rewrite Hts; reflexivity.
Qed.

Lemma run_handleMessage_stored (topic : string) (data : SensorData.t)
  (now : Z) (db : DB) (equipmentId : string) (e : Equipment.t)
  (u : UpdateData.t) (t : Z) :
  equipmentIdOf topic = Some equipmentId ->
  findByPk db (Some equipmentId) = Some e ->
  timestampOf Date_parse data now = Some t ->
  validClock t ->
  mapSensorType (sensorTypeOf topic) data equipmentId (Some t) = Some u ->
  run (handleMessage Date_parse topic (JsonText (JsonObject data)) now) db
  = (Ok tt,
     createAlerts (firedAlerts e (fst (storeReading db u t)))
       (snd (storeReading db u t))).
Proof.
  unfold equipmentIdOf, sensorTypeOf. intros Hid He Ht Hv Hu.
  unfold handleMessage. rewrite run_try_catch.
  cbn [run bind try_catch JSON_parse await exec].
  rewrite Hid, He.
  rewrite run_bind, (run_processSensorData_stored _ _ _ _ _ _ _ Ht Hv Hu).
  rewrite run_checkForAlerts. reflexivity.
Qed.

End Stored.

(* ================================================================== *)
(** * A stream of temperature readings *)

Section TemperatureStream.

Variable Date_parse : string -> option Z.
Variable e : Equipment.t.
Hypothesis maxTemperature_80 : Equipment.maxTemperature e = Some 80%float.

Lemma storeReading_tables (db : DB) (u : UpdateData.t) (ts : Z) :
  equipment (snd (storeReading db u ts)) = equipment db
  /\ alerts (snd (storeReading db u ts)) = alerts db.
Proof.
  unfold storeReading. destruct (findReading _ _ _ _); split; reflexivity.
Qed.

Lemma createAlert_tables (db : DB) (d : AlertData.t) :
  equipment (createAlert db d) = equipment db
  /\ sensorReadings (createAlert db d) = sensorReadings db.
Proof.
  unfold createAlert. destruct (find _ _); split; reflexivity.
Qed.

Lemma storeReading_onlyTemperatures (db : DB) (equipmentId : string)
  (ts : Z) (v : float) :
  onlyTemperatures db ->
  onlyTemperatures
    (snd (storeReading db (temperatureUpdate equipmentId ts (number v)) ts))
  /\ SensorReading.temperature
       (fst (storeReading db (temperatureUpdate equipmentId ts (number v)) ts))
     = Some v
  /\ SensorReading.vibration
       (fst (storeReading db (temperatureUpdate equipmentId ts (number v)) ts))
     = None
  /\ SensorReading.pressure
       (fst (storeReading db (temperatureUpdate equipmentId ts (number v)) ts))
     = None.
Proof.
  intros H. unfold storeReading.
  destruct (findReading _ _ _ _) as [r |] eqn:F; cbn [fst snd].
  - apply findReading_some in F as [Hin _]. destruct (H r Hin) as [Hv Hp].
    split; [| split; [reflexivity | split; [exact Hv | exact Hp]]].
    intros row' Hrow'. cbn [sensorReadings] in Hrow'.
    apply in_map_iff in Hrow' as (row & <- & Hrow).
    unfold updateRow. destruct (Nat.eqb _ _); apply (H row Hrow).
  - split; [| split; [| split]; reflexivity].
    intros row Hrow. cbn [sensorReadings] in Hrow.
    apply in_app_or in Hrow as [Hin | [<- | []]];
      [apply (H row Hin) | split; reflexivity].
Qed.

(** With no vibration and no pressure on the stored reading, only the
    temperature test can fire. *)
Lemma firedAlerts_temperature_only (sr : SensorReading.t) (v : float) :
  SensorReading.temperature sr = Some v ->
  SensorReading.vibration sr = None ->
  SensorReading.pressure sr = None ->
  ToBoolean v = true ->
  firedAlerts e sr
  = if gt (Some v) (Some 80%float) then [temperatureAlert e sr] else [].
Proof.
  intros Ht Hv Hp Hb.
  unfold firedAlerts, temperatureFires, vibrationFires, pressureFires.
  rewrite Ht, Hv, Hp, maxTemperature_80. cbn [truthy]. rewrite Hb.
  cbn [andb]. destruct (gt (Some v) (Some 80%float)); reflexivity.
Qed.

(** The store after one temperature message [{value: v}] for [eq-1]. *)
Lemma temperature_message (v : float) (now : Z) (db : DB) :
  ToBoolean v = true ->
  validClock now ->
  findByPk db (Some "eq-1"%string) = Some e ->
  onlyTemperatures db ->
  exists sr db1,
    handleAll Date_parse [temperatureAt v now] db
    = createAlerts
        (if gt (Some v) (Some 80%float) then [temperatureAlert e sr] else [])
        db1
    /\ alerts db1 = alerts db
    /\ findByPk (handleAll Date_parse [temperatureAt v now] db)
         (Some "eq-1"%string) = Some e
    /\ onlyTemperatures (handleAll Date_parse [temperatureAt v now] db).
Proof.
  intros Hb Hv He Ho.
  pose (u := temperatureUpdate "eq-1" now (number v)).
  assert (R : run (handleMessage Date_parse "sensors/eq-1/temperature"
                     (valuePayload v) now) db
              = (Ok tt, createAlerts (firedAlerts e (fst (storeReading db u now)))
                          (snd (storeReading db u now)))).
  { apply run_handleMessage_stored with (equipmentId := "eq-1"%string);
      try assumption; try reflexivity.
    unfold u, temperatureUpdate, valuePayload. cbn.
    unfold or_else. cbn [truthyValue SensorData.value]. rewrite Hb.
    reflexivity. }
  destruct (storeReading_onlyTemperatures db "eq-1" now v Ho)
    as (Ho1 & Ht & Hvi & Hp).
  fold u in Ho1, Ht, Hvi, Hp.
  destruct (storeReading_tables db u now) as [Heq Hal].
  rewrite (firedAlerts_temperature_only _ v Ht Hvi Hp Hb) in R.
  exists (fst (storeReading db u now)), (snd (storeReading db u now)).
  unfold handleAll, temperatureAt. cbn [fold_left fst snd]. rewrite R.
  cbn [snd].
  split; [reflexivity |]. split; [exact Hal |].
  destruct (gt (Some v) (Some 80%float)); cbn [createAlerts fold_left].
  - destruct (createAlert_tables (snd (storeReading db u now))
                (temperatureAlert e (fst (storeReading db u now)))) as [E1 E2].
    split.
    + unfold findByPk in *. rewrite E1, Heq. exact He.
    + unfold onlyTemperatures. rewrite E2. exact Ho1.
  - split.
    + unfold findByPk in *. rewrite Heq. exact He.
    + exact Ho1.
Qed.

Lemma handleAll_cons (m : string * Message * Z)
  (ms : list (string * Message * Z)) (db : DB) :
  handleAll Date_parse (m :: ms) db
  = handleAll Date_parse ms (handleAll Date_parse [m] db).
Proof. reflexivity. Qed.

Lemma first_hot_reading (v : float) (now : Z) (db : DB) :
  ToBoolean v = true -> gt (Some v) (Some 80%float) = true ->
  validClock now -> following e db [] ->
  exists a,
    following e (handleAll Date_parse [temperatureAt v now] db) [a]
    /\ hotKey a = true.
Proof.
  intros Hb Hg Hv (He & Ho & Ha).
  destruct (temperature_message v now db Hb Hv He Ho)
    as (sr & db1 & E & Ha1 & He' & Ho').
  rewrite Hg in E. cbn [createAlerts fold_left] in E.
  unfold createAlert in E. rewrite Ha1, Ha in E. cbn [find] in E.
  exists (newAlert (nextId db1) (temperatureAlert e sr)).
  split; [split; [exact He' | split; [exact Ho' |]] |].
  - rewrite E. reflexivity.
  - unfold hotKey, alertKey. cbn.
    rewrite (findByPk_id db _ e He). reflexivity.
Qed.

Lemma later_hot_reading (v : float) (now : Z) (db : DB) (a : Alert.t) :
  ToBoolean v = true -> gt (Some v) (Some 80%float) = true ->
  validClock now -> following e db [a] -> hotKey a = true ->
  following e (handleAll Date_parse [temperatureAt v now] db) [a].
Proof.
  intros Hb Hg Hv (He & Ho & Ha) Hk.
  destruct (temperature_message v now db Hb Hv He Ho)
    as (sr & db1 & E & Ha1 & He' & Ho').
  split; [exact He' | split; [exact Ho' |]].
  rewrite E, Hg. cbn [createAlerts fold_left]. unfold createAlert.
  rewrite Ha1, Ha. cbn [AlertData.equipmentId AlertData.type AlertData.title
                          temperatureAlert find].
  rewrite (findByPk_id db _ e He). fold hotKey. rewrite Hk.
  rewrite Ha1. exact Ha.
Qed.

Lemma cool_reading (v : float) (now : Z) (db : DB) (A : list Alert.t) :
  ToBoolean v = true -> gt (Some v) (Some 80%float) = false ->
  validClock now -> following e db A ->
  following e (handleAll Date_parse [temperatureAt v now] db) A.
Proof.
  intros Hb Hg Hv (He & Ho & Ha).
  destruct (temperature_message v now db Hb Hv He Ho)
    as (sr & db1 & E & Ha1 & He' & Ho').
  split; [exact He' | split; [exact Ho' |]].
  rewrite E, Hg. cbn [createAlerts fold_left]. rewrite Ha1. exact Ha.
Qed.

(** C2, as the code has it: with [maxTemperature] = 80 and the stream
    82, 83, 81, 79, 78, 77 handled in order, the first reading creates an
    active critical temperature alert; the readings 83 and 81 create no
    second one; and after 79, 78 and 77 that alert is still the only one
    and still ['active'].  The ingestion service has no transition to
    ['resolved']. *)
Theorem temperature_stream_alert_stays_active (db0 : DB)
  (t1 t2 t3 t4 t5 t6 : Z) :
  findByPk db0 (Some "eq-1"%string) = Some e ->
  sensorReadings db0 = [] ->
  alerts db0 = [] ->
  validClock t1 -> validClock t2 -> validClock t3 ->
  validClock t4 -> validClock t5 -> validClock t6 ->
  exists a,
    alerts (handleAll Date_parse [temperatureAt 82 t1] db0) = [a]
    /\ Alert.equipmentId a = "eq-1"%string
    /\ Alert.type a = critical
    /\ Alert.title a = "High Temperature Alert"%string
    /\ Alert.status a = active
    /\ alerts (handleAll Date_parse
                 [temperatureAt 82 t1; temperatureAt 83 t2; temperatureAt 81 t3]
                 db0) = [a]
    /\ alerts (handleAll Date_parse
                 [temperatureAt 82 t1; temperatureAt 83 t2; temperatureAt 81 t3;
                  temperatureAt 79 t4; temperatureAt 78 t5; temperatureAt 77 t6]
                 db0) = [a].
Proof.
  intros He Hr Ha V1 V2 V3 V4 V5 V6.
  assert (F0 : following e db0 []).
  { split; [exact He | split; [| exact Ha]].
    intros r Hin. rewrite Hr in Hin. destruct Hin. }
  destruct (first_hot_reading 82 t1 db0 eq_refl eq_refl V1 F0) as (a & F1 & Hk).
  pose proof (later_hot_reading 83 t2 _ a eq_refl eq_refl V2 F1 Hk) as F2.
  pose proof (later_hot_reading 81 t3 _ a eq_refl eq_refl V3 F2 Hk) as F3.
  pose proof (cool_reading 79 t4 _ [a] eq_refl eq_refl V4 F3) as F4.
  pose proof (cool_reading 78 t5 _ [a] eq_refl eq_refl V5 F4) as F5.
  pose proof (cool_reading 77 t6 _ [a] eq_refl eq_refl V6 F5) as F6.
  exists a.
  destruct (alertKey_inv _ _ _ _ _ Hk) as (K1 & K2 & K3).
  assert (Ks : Alert.status a = active).
  { unfold hotKey, alertKey in Hk. apply andb_prop in Hk as [_ Hs].
    destruct (Alert.status a); [reflexivity | discriminate | discriminate]. }
  repeat split; try assumption.
  - apply F1.
  - exact (proj2 (proj2 F3)).
  - exact (proj2 (proj2 F6)).
Qed.

End TemperatureStream.

Lemma temperature_stream_alert_stays_active_witness :
  exists a,
    alerts (handleAll sampleDates [temperatureAt 82 1000] freshStore) = [a]
    /\ Alert.equipmentId a = "eq-1"%string
    /\ Alert.type a = critical
    /\ Alert.title a = "High Temperature Alert"%string
    /\ Alert.status a = active
    /\ alerts (handleAll sampleDates
                 [temperatureAt 82 1000; temperatureAt 83 2000;
                  temperatureAt 81 3000] freshStore) = [a]
    /\ alerts (handleAll sampleDates scenarioStream freshStore) = [a].
Proof.
  apply (temperature_stream_alert_stays_active sampleDates eq1 eq_refl
           freshStore 1000 2000 3000 4000 5000 6000);
    try reflexivity; unfold validClock; simpl; lia.
Defined.

(** C2 as the specification words it fails: after 79, 78 and 77 the alert
    opened by the first reading has not become ['resolved']; the alert table
    holds that one alert, with status ['active']. *)
Lemma temperature_stream_never_resolved :
  map Alert.status
    (alerts (handleAll sampleDates [temperatureAt 82 1000] freshStore))
  = [active]
  /\ map Alert.status (alerts (handleAll sampleDates scenarioStream freshStore))
     = [active]
  /\ ~ In resolved
         (map Alert.status
            (alerts (handleAll sampleDates scenarioStream freshStore))).
Proof.
  split; [vm_compute; reflexivity |].
  split; [vm_compute; reflexivity |].
  vm_compute. intros [H | []]. discriminate H.
Qed.

(* ================================================================== *)
(** * One low-pressure message *)

Section LowPressure.

Variable Date_parse : string -> option Z.
Variables (e : Equipment.t) (db : DB) (now : Z).

Hypothesis profile_found : findByPk db (Some "eq-1"%string) = Some e.
Hypothesis minPressure_10 : Equipment.minPressure e = Some 10%float.
Hypothesis clock_valid : validClock now.

Lemma createAlert_existing (db1 : DB) (d : AlertData.t) :
  find (alertKey (AlertData.equipmentId d) (AlertData.type d)
          (AlertData.title d) active) (alerts db1) <> None ->
  createAlert db1 d = db1.
Proof.
  unfold createAlert. destruct (find _ _); [reflexivity | congruence].
Qed.

Lemma createAlerts_app (l1 l2 : list AlertData.t) (db1 : DB) :
  createAlerts (l1 ++ l2) db1 = createAlerts l2 (createAlerts l1 db1).
Proof. unfold createAlerts. apply fold_left_app. Qed.

(** An alert that fires only when its key is already active creates
    nothing. *)
Lemma createAlerts_suppressed (fires : bool) (d : AlertData.t) (db1 : DB) :
  (fires = true ->
   find (alertKey (AlertData.equipmentId d) (AlertData.type d)
           (AlertData.title d) active) (alerts db1) <> None) ->
  createAlerts (if fires then [d] else []) db1 = db1.
Proof.
  destruct fires; intros H; [| reflexivity].
  cbn [createAlerts fold_left]. apply createAlert_existing, H. reflexivity.
Qed.

(** C6, as the code has it: one message [{value: 5}] on
    [sensors/eq-1/pressure], for equipment [eq-1] with [minPressure] = 10
    and no active pressure alert, creates exactly one alert, the warning
    "Pressure Out of Range" -- provided the reading it is coalesced into, if
    any, does not carry a temperature or vibration above its maximum whose
    alert is not already active. *)
Theorem low_pressure_message_one_alert :
  find pressureKey (alerts db) = None ->
  (forall r, findReading db "eq-1" (now - 5000) (now + 5000) = Some r ->
     (temperatureFires e r = true -> find hotKey (alerts db) <> None)
     /\ (vibrationFires e r = true -> find vibrationKey (alerts db) <> None)) ->
  exists a,
    alerts (handleAll Date_parse [pressureAt 5 now] db) = alerts db ++ [a]
    /\ Alert.equipmentId a = "eq-1"%string
    /\ Alert.type a = warning
    /\ Alert.title a = "Pressure Out of Range"%string
    /\ Alert.status a = active
    /\ Metadata.sensorType (Alert.metadata a) = "pressure"%string.
Proof.
  intros Hnone Hmerged.
  pose (u := pressureUpdate "eq-1" now (number 5)).
  assert (R : run (handleMessage Date_parse "sensors/eq-1/pressure"
                     (valuePayload 5) now) db
              = (Ok tt, createAlerts (firedAlerts e (fst (storeReading db u now)))
                          (snd (storeReading db u now)))).
  { apply run_handleMessage_stored with (equipmentId := "eq-1"%string);
      try assumption; reflexivity. }
  unfold handleAll, pressureAt. cbn [fold_left fst snd]. rewrite R.
  cbn [snd]. clear R.
  pose proof (findByPk_id db _ e profile_found) as Hid.
  set (sr := fst (storeReading db u now)).
  set (db1 := snd (storeReading db u now)).
  assert (Ha1 : alerts db1 = alerts db)
    by apply (proj2 (storeReading_tables db u now)).
  assert (Hfires :
    (temperatureFires e sr = true -> find hotKey (alerts db) <> None)
    /\ (vibrationFires e sr = true -> find vibrationKey (alerts db) <> None)
    /\ pressureFires e sr = true).
  { unfold sr, storeReading. cbn [UpdateData.equipmentId u pressureUpdate].
    destruct (findReading db "eq-1" (now - 5000) (now + 5000)) as [r |] eqn:F;
      cbn [fst].
    - destruct (Hmerged r eq_refl) as [Ht Hv].
      split; [exact Ht | split; [exact Hv |]].
      unfold pressureFires. cbn. rewrite minPressure_10.
      apply orb_true_r.
    - split; [discriminate | split; [discriminate |]].
      unfold pressureFires. cbn. rewrite minPressure_10.
      apply orb_true_r. }
  destruct Hfires as (Ht & Hv & Hp).
  unfold firedAlerts. rewrite Hp, !createAlerts_app.
  rewrite (createAlerts_suppressed (temperatureFires e sr)).
  2:{ cbn. rewrite Hid, Ha1. exact Ht. }
  rewrite (createAlerts_suppressed (vibrationFires e sr)).
  2:{ cbn. rewrite Hid, Ha1. exact Hv. }
  cbn [createAlerts fold_left]. unfold createAlert.
  cbn [AlertData.equipmentId AlertData.type AlertData.title pressureAlert].
  rewrite Hid, Ha1. fold pressureKey. rewrite Hnone. cbn [alerts].
  exists (newAlert (nextId db1) (pressureAlert e sr)).
  cbn. rewrite Hid. repeat split; reflexivity.
Qed.

End LowPressure.

Lemma low_pressure_message_one_alert_witness :
  exists a,
    alerts (handleAll sampleDates [pressureAt 5 1000] freshStore)
    = alerts freshStore ++ [a]
    /\ Alert.equipmentId a = "eq-1"%string
    /\ Alert.type a = warning
    /\ Alert.title a = "Pressure Out of Range"%string
    /\ Alert.status a = active
    /\ Metadata.sensorType (Alert.metadata a) = "pressure"%string.
Proof.
  apply (low_pressure_message_one_alert sampleDates eq1 freshStore 1000).
  - reflexivity.
  - reflexivity.
  - unfold validClock. simpl. lia.
  - reflexivity.
  - intros r H. discriminate H.
Defined.

(** C6 as the specification words it fails when the message is coalesced
    into a reading that is already too hot: equipment [eq-1] has
    [minPressure] = 10 and no active alert at all, and the single pressure
    message creates two alerts, a critical temperature alert and the
    pressure warning. *)
Lemma low_pressure_message_two_alerts :
  Equipment.minPressure eq1 = Some 10%float
  /\ filter (fun a => AlertStatus_eqb (Alert.status a) active)
       (alerts acknowledgedStore) = []
  /\ map (fun a => (Alert.type a, Alert.title a, Alert.status a))
       (skipn (List.length (alerts acknowledgedStore))
          (alerts (handleAll sampleDates [pressureAt 5 2000] acknowledgedStore)))
     = [ (critical, "High Temperature Alert"%string, active);
         (warning, "Pressure Out of Range"%string, active) ].
Proof.
  split; [reflexivity |]. split; vm_compute; reflexivity.
Qed.

(* ================================================================== *)
(** * Timestamps and coalescing of readings *)

Section Coalescing.

Variable Date_parse : string -> option Z.










(** A truthy timestamp that is no valid date -- a string the engine cannot
    parse, a number beyond the range of dates -- or whose 5-second window
    leaves the range of dates, has the window query rejected: nothing is
    stored. *)
Lemma invalid_timestamp_stores_nothing (equipmentId : string)
  (sensorType : option string) (data : SensorData.t) (now : Z) (db : DB) :
  timestampOf Date_parse data now = None
  \/ (exists t, timestampOf Date_parse data now = Some t
                /\ (8640000000000000 - 5000 < Z.abs t)%Z) ->
  run (processSensorData Date_parse equipmentId sensorType (JsonObject data)
         now) db = (Ok None, db).
Proof.
  intros H. unfold processSensorData. rewrite run_try_catch.
  cbn [keysOf bind].
  destruct H as [-> | (t & -> & Ht)]; [reflexivity |].
  change (run (Await ?op ?k) db) with (let (r, db') := exec op db in run (k r) db').
  cbn [exec Date_shift]. unfold TimeClip.
  destruct (Z.leb_spec (Z.abs (t + -5000)) 8640000000000000) as [L1 | L1];
    [| reflexivity].
  destruct (Z.leb_spec (Z.abs (t + 5000)) 8640000000000000) as [L2 | L2];
    [| reflexivity].
  lia.
Qed.

End Coalescing.


(** The coalesced reading of the example: the vibration message stamped
    10000 ms is merged into the reading taken at 12000 ms, which keeps its
    temperature; the message without timestamp, received at 99000 ms, finds
    no reading within 5 seconds and a second record is added. *)
Lemma stamped_vibration_is_merged :
  sensorReadings
    (snd (run (processSensorData sampleDates "eq-1" (Some "vibration"%string)
                 (JsonObject stampedVibration) 99000) oneReadingStore))
  = [ SensorReading.mk 0 "eq-1" 10000 (Some 70%float) (Some 4%float) None
        None None None None None None ]
  /\ sensorReadings
       (snd (run (processSensorData sampleDates "eq-1"
                    (Some "vibration"%string)
                    (JsonObject unstampedVibration) 99000) oneReadingStore))
     = [ SensorReading.mk 0 "eq-1" 12000 (Some 70%float) None None
           None None None None None None;
         SensorReading.mk 1 "eq-1" 99000 None (Some 4%float) None
           None None None None None None ].
Proof. split; vm_compute; reflexivity. Qed.


(* ================================================================== *)
(** * Error isolation *)

Section Isolation.

Variable Date_parse : string -> option Z.

Lemma settles_bind {A B} (m : Async A) (f : A -> Async B) :
  settles m -> (forall a, settles (f a)) -> settles (bind m f).
Proof.
  intros Hm Hf. induction Hm as [a | X op k _ IH]; cbn [bind].
  - apply Hf.
  - apply settles_Await. exact IH.
Qed.

Lemma settles_try_catch {A} (m : Async A) (h : Error -> Async A) :
  (forall e, settles (h e)) -> settles (try_catch m h).
Proof.
  intros Hh. induction m as [a | e | X op k IH]; cbn [try_catch].
  - apply settles_Return.
  - apply Hh.
  - apply settles_Await. exact IH.
Qed.

Lemma settles_forEach {X} (l : list X) (body : X -> Async unit) :
  (forall x, settles (body x)) -> settles (forEach l body).
Proof.
  intros Hb. induction l as [| x l IH]; cbn [forEach].
  - apply settles_Return.
  - apply settles_bind; [apply Hb | intros _; exact IH].
Qed.

(** The loop of [checkForAlerts] wraps each alert in its own [try]: a
    rejected [Alert.findOne] or [Alert.create] never escapes it. *)
Lemma checkForAlerts_settles (equipment : Equipment.t)
  (sensorReading : SensorReading.t) :
  settles (checkForAlerts equipment sensorReading).
Proof.
  apply settles_forEach. intros d. apply settles_try_catch.
  intros _. apply settles_Return.
Qed.

Lemma handleMessage_caught (topic : string) (message : Message) (now : Z) :
  settles (handleMessage Date_parse topic message now).
Proof.
  apply settles_try_catch. intros _. apply settles_Return.
Qed.

(** Whatever the ORM calls of a handler resolve to or reject with -- a
    database error included -- [handleMessage] ends by returning: nothing it
    awaits can make it throw. *)
Theorem handleMessage_settles (topic : string) (message : Message) (now : Z) :
  settles (handleMessage Date_parse topic message now).
Proof. apply handleMessage_caught. Qed.

Lemma resume_settles (m : Async unit) (db : DB) :
  settles m -> settles (fst (resume m db)).
Proof.
  intros H. destruct H as [a | X op k Hk]; cbn [resume].
  - apply settles_Return.
  - destruct (exec op db) as [r db']. apply Hk.
Qed.

Lemma resumeNth_settles (i : nat) (calls : list (Async unit)) (db : DB) :
  Forall settles calls -> Forall settles (fst (resumeNth i calls db)).
Proof.
  revert i. induction calls as [| m rest IH]; intros i H;
    [destruct i; constructor |].
  inversion H as [| ? ? Hm Hrest]; subst.
  destruct i as [| j]; cbn [resumeNth].
  - pose proof (resume_settles m db Hm) as Hs.
    destruct (resume m db) as [m' db']. constructor; assumption.
  - specialize (IH j Hrest). destruct (resumeNth j rest db) as [rest' db'].
    constructor; assumption.
Qed.

Lemma interleave_settles (schedule : list nat) (calls : list (Async unit))
  (db : DB) :
  Forall settles calls -> Forall settles (fst (interleave schedule calls db)).
Proof.
  revert calls db. induction schedule as [| i schedule IH]; intros calls db H.
  - exact H.
  - cbn [interleave]. pose proof (resumeNth_settles i calls db H) as Hs.
    destruct (resumeNth i calls db) as [calls' db']. apply IH, Hs.
Qed.

(** However the handlers of a batch of messages interleave, none of them
    ever ends in a thrown error. *)
Theorem interleaved_handlers_never_throw
  (messages : list (string * Message * Z)) (schedule : list nat) (db : DB) :
  noneThrown
    (fst (interleave schedule
            (map (fun m => handleMessage Date_parse (fst (fst m)) (snd (fst m))
                             (snd m)) messages) db)).
Proof.
  assert (H : Forall settles
                (map (fun m => handleMessage Date_parse (fst (fst m))
                                 (snd (fst m)) (snd m)) messages)).
  { apply Forall_forall. intros c Hc. apply in_map_iff in Hc as (m & <- & _).
    apply handleMessage_caught. }
  pose proof (interleave_settles schedule _ db H) as Hs.
  intros e Hin. rewrite Forall_forall in Hs. specialize (Hs _ Hin).
  inversion Hs.
Qed.

End Isolation.

(* ================================================================== *)
(** * What one message can change *)

Section Frame.

Variable Date_parse : string -> option Z.

Lemma TimeClip_some (t x : Z) : TimeClip t = Some x -> x = t.
Proof.
  unfold TimeClip. destruct (Z.abs t <=? 8640000000000000)%Z; congruence.
Qed.

(** [processSensorData] either stores nothing, or stores the reading that
    [storeReading] describes. *)
Lemma run_processSensorData_cases (equipmentId : string)
  (sensorType : option string) (data : Json) (now : Z) (db : DB) :
  run (processSensorData Date_parse equipmentId sensorType data now) db
  = (Ok None, db)
  \/ exists d u t,
       data = JsonObject d
       /\ mapSensorType sensorType d equipmentId (Some t) = Some u
       /\ run (processSensorData Date_parse equipmentId sensorType data now) db
          = (Ok (Some (fst (storeReading db u t))), snd (storeReading db u t)).
Proof.
  destruct data as [| d]; [left; reflexivity |].
  unfold processSensorData. rewrite run_try_catch. cbn [keysOf bind].
  destruct (timestampOf Date_parse d now) as [t |]; [| left; reflexivity].
  change (run (Await ?op ?k) db) with (let (r, db') := exec op db in run (k r) db').
  cbn [exec Date_shift].
  destruct (TimeClip (t + -5000)) as [lo |] eqn:Hlo; [| left; reflexivity].
  destruct (TimeClip (t + 5000)) as [hi |] eqn:Hhi; [| left; reflexivity].
  apply TimeClip_some in Hlo, Hhi. subst lo hi.
  cbn [run bind await exec].
  destruct (mapSensorType sensorType d equipmentId (Some t)) as [u |] eqn:Hu;
    [| left; reflexivity].
  right. exists d, u, t. split; [reflexivity |]. split; [exact Hu |].
  destruct (mapSensorType_fields _ _ _ _ _ Hu) as [Hid Hts].
  unfold storeReading. rewrite Hid.
  change (t - 5000)%Z with (t + -5000)%Z.
  destruct (findReading db equipmentId (t + -5000) (t + 5000)) as [r |];
    cbn [run bind await exec]; rewrite Hts; reflexivity.
Qed.

(** [handleMessage] either leaves the store as it was, or stores one reading
    for an equipment that exists and runs the alert loop on it. *)
Lemma run_handleMessage_cases (topic : string) (message : Message) (now : Z)
  (db : DB) :
  run (handleMessage Date_parse topic message now) db = (Ok tt, db)
  \/ exists equipmentId e u t,
       equipmentIdOf topic = Some equipmentId
       /\ findByPk db (Some equipmentId) = Some e
       /\ UpdateData.equipmentId u = equipmentId
       /\ run (handleMessage Date_parse topic message now) db
          = (Ok tt,
             createAlerts (firedAlerts e (fst (storeReading db u t)))
               (snd (storeReading db u t))).
Proof.
  unfold equipmentIdOf, handleMessage. rewrite run_try_catch.
  destruct message as [| v]; [left; reflexivity |].
  cbn [run bind try_catch JSON_parse await exec].
  destruct (nth_error (split "/" topic) 1) as [equipmentId |] eqn:Hid.
  2:{ left. cbn [findByPk]. reflexivity. }
  destruct (findByPk db (Some equipmentId)) as [e |] eqn:He;
    [| left; reflexivity].
  rewrite run_bind.
  destruct (run_processSensorData_cases equipmentId
              (nth_error (split "/" topic) 2) v now db)
    as [R | (d & u & t & _ & Hu & R)]; rewrite R.
  - left. reflexivity.
  - right. exists equipmentId, e, u, t.
    destruct (mapSensorType_fields _ _ _ _ _ Hu) as [Hu1 _].
    repeat split; try assumption.
    rewrite run_checkForAlerts. reflexivity.
Qed.

Lemma createAlerts_tables (l : list AlertData.t) (db : DB) :
  equipment (createAlerts l db) = equipment db
  /\ sensorReadings (createAlerts l db) = sensorReadings db.
Proof.
  revert db. induction l as [| d l IH]; intros db; [split; reflexivity |].
  cbn [createAlerts fold_left]. fold (createAlerts l (createAlert db d)).
  destruct (IH (createAlert db d)) as [E R].
  destruct (createAlert_tables db d) as [E' R'].
  split; congruence.
Qed.

(** The alerts the loop adds: appended after the existing ones, all active,
    each built from one of the fired alerts. *)
Lemma createAlerts_appends (l : list AlertData.t) (db : DB) :
  exists new,
    alerts (createAlerts l db) = alerts db ++ new
    /\ List.length new <= List.length l
    /\ Forall (fun a => Alert.status a = active
                        /\ exists d, In d l
                             /\ Alert.equipmentId a = AlertData.equipmentId d
                             /\ Alert.type a = AlertData.type d
                             /\ Alert.title a = AlertData.title d) new.
Proof.
  revert db. induction l as [| d l IH]; intros db.
  - exists []. cbn. rewrite app_nil_r. repeat split; [lia | constructor].
  - cbn [createAlerts fold_left]. fold (createAlerts l (createAlert db d)).
    destruct (IH (createAlert db d)) as (new & Hn & Hlen & Hall).
    assert (Hmono : Forall (fun a => Alert.status a = active
                        /\ exists d0, In d0 (d :: l)
                             /\ Alert.equipmentId a = AlertData.equipmentId d0
                             /\ Alert.type a = AlertData.type d0
                             /\ Alert.title a = AlertData.title d0) new).
    { eapply Forall_impl; [| exact Hall].
      intros a (Hs & d0 & Hin & Hrest). split; [exact Hs |].
      exists d0. split; [right; exact Hin | exact Hrest]. }
    unfold createAlert in Hn |- *.
    destruct (find _ (alerts db)).
    + exists new. split; [exact Hn |]. split; [cbn; lia | exact Hmono].
    + exists (newAlert (nextId db) d :: new). cbn [alerts] in Hn.
      rewrite Hn, <- app_assoc. split; [reflexivity |].
      split; [cbn; lia |].
      constructor; [| exact Hmono].
      split; [reflexivity |]. exists d. split; [left; reflexivity |].
      repeat split; reflexivity.
Qed.

Lemma firedAlerts_bound (e : Equipment.t) (sr : SensorReading.t) :
  List.length (firedAlerts e sr) <= 3
  /\ forall d, In d (firedAlerts e sr) ->
       AlertData.equipmentId d = Equipment.id e
       /\ (AlertData.type d = critical \/ AlertData.type d = warning).
Proof.
  unfold firedAlerts.
  destruct (temperatureFires e sr), (vibrationFires e sr), (pressureFires e sr);
    cbn; (split; [lia |]); intros d Hd;
    repeat (destruct Hd as [<- | Hd]; [cbn; auto |]); destruct Hd.
Qed.

Lemma run_handleMessage_new_alerts (topic : string) (message : Message)
  (now : Z) (db : DB) :
  exists new,
    alerts (snd (run (handleMessage Date_parse topic message now) db))
    = alerts db ++ new
    /\ List.length new <= 3
    /\ Forall (fun a => Alert.status a = active
                        /\ Some (Alert.equipmentId a) = equipmentIdOf topic
                        /\ (Alert.type a = critical \/ Alert.type a = warning))
         new.
Proof.
  destruct (run_handleMessage_cases topic message now db)
    as [R | (id & e & u & t & Hid & He & Hu & R)]; rewrite R; cbn [snd].
  - exists []. rewrite app_nil_r. repeat split; [cbn; lia | constructor].
  - destruct (createAlerts_appends (firedAlerts e (fst (storeReading db u t)))
                (snd (storeReading db u t))) as (new & Hn & Hlen & Hall).
    destruct (firedAlerts_bound e (fst (storeReading db u t))) as [Hb Hd].
    exists new. rewrite Hn, (proj2 (storeReading_tables db u t)).
    split; [reflexivity |]. split; [lia |].
    eapply Forall_impl; [| exact Hall].
    intros a (Hs & d & Hin & Ha1 & Ha2 & _).
    destruct (Hd d Hin) as [Hd1 Hd2].
    split; [exact Hs |]. split.
    + rewrite Hid, Ha1, Hd1, (findByPk_id db _ e He). reflexivity.
    + rewrite Ha2. exact Hd2.
Qed.

(** Handling a message never rewrites or removes an alert: the alert table
    afterwards is the table before followed by at most three new alerts, all
    active, all of type critical or warning, all for the equipment the topic
    names. *)
Theorem handleMessage_appends_alerts (topic : string) (message : Message)
  (now : Z) (db : DB) :
  exists new,
    alerts (snd (run (handleMessage Date_parse topic message now) db))
    = alerts db ++ new
    /\ List.length new <= 3
    /\ Forall (fun a => Alert.status a = active
                        /\ Some (Alert.equipmentId a) = equipmentIdOf topic
                        /\ (Alert.type a = critical \/ Alert.type a = warning))
         new.
Proof. apply run_handleMessage_new_alerts. Qed.

(** Handling a message never changes the [Equipment] table and never
    removes a reading: afterwards there are as many reading rows as before,
    or one more. *)
Theorem handleMessage_keeps_equipment_and_readings (topic : string)
  (message : Message) (now : Z) (db : DB) :
  equipment (snd (run (handleMessage Date_parse topic message now) db))
  = equipment db
  /\ (List.length
        (sensorReadings (snd (run (handleMessage Date_parse topic message now) db)))
      = List.length (sensorReadings db)
      \/ List.length
           (sensorReadings (snd (run (handleMessage Date_parse topic message now) db)))
         = S (List.length (sensorReadings db))).
Proof.
  destruct (run_handleMessage_cases topic message now db)
    as [R | (id & e & u & t & Hid & He & Hu & R)]; rewrite R; cbn [snd].
  - split; [reflexivity | left; reflexivity].
  - destruct (createAlerts_tables (firedAlerts e (fst (storeReading db u t)))
                (snd (storeReading db u t))) as [E Rd].
    rewrite E, Rd. split; [apply (proj1 (storeReading_tables db u t)) |].
    unfold storeReading. destruct (findReading _ _ _ _); cbn [snd sensorReadings].
    + left. apply length_map.
    + right. rewrite length_app. cbn. lia.
Qed.

End Frame.

(* ================================================================== *)
(** * Redelivery and isolation between equipment *)

Section Redelivery.

Variable Date_parse : string -> option Z.

Lemma run_handleMessage_object (topic : string) (data : SensorData.t)
  (now : Z) (db : DB) :
  run (handleMessage Date_parse topic (JsonText (JsonObject data)) now) db
  = (Ok tt, handled topic data (timestampOf Date_parse data now) db).
Proof.
  unfold handled, equipmentIdOf, sensorTypeOf, handleMessage.
  rewrite run_try_catch.
  cbn [run bind try_catch JSON_parse await exec].
  destruct (nth_error (split "/" topic) 1) as [equipmentId |] eqn:Hid.
  2:{ cbn [findByPk]. destruct (timestampOf _ _ _); reflexivity. }
  destruct (findByPk db (Some equipmentId)) as [e |] eqn:He.
  2:{ destruct (timestampOf _ _ _); reflexivity. }
  rewrite run_bind. unfold processSensorData. rewrite run_try_catch.
  cbn [keysOf bind].
  destruct (timestampOf Date_parse data now) as [t |]; [| reflexivity].
  change (run (Await ?op ?k) db) with (let (r, db') := exec op db in run (k r) db').
  cbn [exec Date_shift]. change (t + -5000)%Z with (t - 5000)%Z.
  destruct (TimeClip (t - 5000)) as [lo |] eqn:Hlo; [| reflexivity].
  destruct (TimeClip (t + 5000)) as [hi |] eqn:Hhi; [| reflexivity].
  apply TimeClip_some in Hlo, Hhi. subst lo hi.
  cbn [run bind await exec].
  destruct (mapSensorType (nth_error (split "/" topic) 2) data equipmentId (Some t))
    as [u |] eqn:Hu; [| reflexivity].
  destruct (mapSensorType_fields _ _ _ _ _ Hu) as [Hu1 Hu2].
  unfold storeReading. rewrite Hu1.
  destruct (findReading db equipmentId (t - 5000) (t + 5000)) as [r |];
    cbn [run bind await exec fst snd]; rewrite Hu2;
    cbn [run bind await exec fst snd]; rewrite run_checkForAlerts; reflexivity.
Qed.

Lemma assign_idem (old : Field) (new : option Value) :
  assign (assign old new) new = assign old new.
Proof. destruct new as [[| | x] |]; reflexivity. Qed.

Lemma assignMetrics_idem {A} (old new : option A) :
  assignMetrics (assignMetrics old new) new = assignMetrics old new.
Proof. destruct new; reflexivity. Qed.

Lemma applyUpdate_idem (r : SensorReading.t) (u : UpdateData.t) (t : Z) :
  applyUpdate (applyUpdate r u t) u t = applyUpdate r u t.
Proof.
  unfold applyUpdate. cbn. rewrite !assign_idem, assignMetrics_idem.
  reflexivity.
Qed.

Lemma updateRow_idem (id : nat) (u : UpdateData.t) (t : Z)
  (row : SensorReading.t) :
  updateRow id u t (updateRow id u t row) = updateRow id u t row.
Proof.
  unfold updateRow. destruct (Nat.eqb (SensorReading.id row) id) eqn:E.
  - cbn [applyUpdate SensorReading.id]. rewrite E. apply applyUpdate_idem.
  - rewrite E. reflexivity.
Qed.

Lemma in_window_applyUpdate (r : SensorReading.t) (u : UpdateData.t) (t : Z) :
  in_window (UpdateData.equipmentId u) (t - 5000) (t + 5000)
    (applyUpdate r u t) = true.
Proof.
  unfold in_window. cbn. rewrite String.eqb_refl. cbn.
  apply andb_true_intro. split; apply Z.leb_le; lia.
Qed.

Lemma same_id_same_row (l : list SensorReading.t) (x y : SensorReading.t) :
  NoDup (map SensorReading.id l) -> In x l -> In y l ->
  SensorReading.id x = SensorReading.id y -> x = y.
Proof.
  induction l as [| z l IH]; intros Hnd Hx Hy E; [destruct Hx |].
  cbn in Hnd. inversion Hnd as [| ? ? Hnot Hnd']; subst.
  destruct Hx as [-> | Hx], Hy as [-> | Hy].
  - reflexivity.
  - exfalso. apply Hnot. rewrite E. apply in_map, Hy.
  - exfalso. apply Hnot. rewrite <- E. apply in_map, Hx.
  - apply IH; assumption.
Qed.

(** When one row matches, that is the row [findOne] returns. *)
Lemma findReading_only (db : DB) (equipmentId : string) (gte lte : Z)
  (r : SensorReading.t) :
  filter (in_window equipmentId gte lte) (sensorReadings db) = [r] ->
  findReading db equipmentId gte lte = Some r.
Proof.
  unfold findReading. intros ->.
  destruct (findOneChoice db [r]) as [| [| n]]; reflexivity.
Qed.

Lemma only_match {A} (f : A -> bool) (l : list A) (x y : A) :
  List.length (filter f l) <= 1 ->
  In x l -> f x = true -> In y l -> f y = true -> x = y.
Proof.
  intros H Hx Fx Hy Fy.
  assert (Ix : In x (filter f l)) by (apply filter_In; split; assumption).
  assert (Iy : In y (filter f l)) by (apply filter_In; split; assumption).
  destruct (filter f l) as [| z [| z' l']]; cbn in H.
  - destruct Ix.
  - destruct Ix as [<- | []], Iy as [<- | []]. reflexivity.
  - lia.
Qed.

Lemma filter_nothing {A} (f : A -> bool) (l : list A) :
  (forall x, In x l -> f x = false) -> filter f l = [].
Proof.
  induction l as [| x l IH]; intros H; [reflexivity |].
  cbn [filter]. rewrite (H x (or_introl eq_refl)).
  apply IH. intros y Hy. apply H. right. exact Hy.
Qed.

Lemma filter_untouched (rid : nat) (u : UpdateData.t) (t : Z)
  (f : SensorReading.t -> bool) (l : list SensorReading.t) :
  (forall y, In y l -> SensorReading.id y <> rid /\ f y = false) ->
  filter f (map (updateRow rid u t) l) = [].
Proof.
  intros H. apply filter_nothing. intros y Hy.
  apply in_map_iff in Hy as (x & <- & Hx). destruct (H x Hx) as [Hne Hf].
  unfold updateRow. apply Nat.eqb_neq in Hne. rewrite Hne. exact Hf.
Qed.

(** After the update, the updated row is the one row in the window. *)
Lemma filter_after_update (l : list SensorReading.t) (r : SensorReading.t)
  (u : UpdateData.t) (t : Z) :
  NoDup (map SensorReading.id l) ->
  In r l ->
  (forall x, In x l ->
     in_window (UpdateData.equipmentId u) (t - 5000) (t + 5000) x = true ->
     x = r) ->
  filter (in_window (UpdateData.equipmentId u) (t - 5000) (t + 5000))
    (map (updateRow (SensorReading.id r) u t) l)
  = [applyUpdate r u t].
Proof.
  induction l as [| x l IH]; intros Hnd Hin Hone; [destruct Hin |].
  cbn in Hnd. inversion Hnd as [| ? ? Hnot Hnd']; subst.
  cbn [map filter].
  destruct Hin as [-> | Hin].
  - unfold updateRow at 1. rewrite Nat.eqb_refl, in_window_applyUpdate.
    f_equal; [unfold updateRow; rewrite Nat.eqb_refl; reflexivity |].
    apply filter_untouched. intros y Hy.
    assert (Hne : SensorReading.id y <> SensorReading.id r).
    { intros E. apply Hnot. rewrite <- E. apply in_map, Hy. }
    split; [exact Hne |].
    destruct (in_window _ _ _ y) eqn:W; [| reflexivity].
    exfalso. apply Hne. rewrite (Hone y (or_intror Hy) W). reflexivity.
  - assert (Hne : SensorReading.id x <> SensorReading.id r).
    { intros E. apply Hnot. rewrite E. apply in_map, Hin. }
    unfold updateRow at 1. apply Nat.eqb_neq in Hne as Hne'. rewrite Hne'.
    destruct (in_window _ _ _ x) eqn:W.
    + exfalso. apply Hne. rewrite (Hone x (or_introl eq_refl) W). reflexivity.
    + apply IH; [exact Hnd' | exact Hin |].
      intros y Hy. apply Hone. right. exact Hy.
Qed.

Lemma find_app_last {A} (f : A -> bool) (l : list A) (x : A) :
  find f l = None -> f x = true -> find f (l ++ [x]) = Some x.
Proof.
  induction l as [| y l IH]; cbn; intros F Hx.
  - rewrite Hx. reflexivity.
  - destruct (f y); [discriminate F | apply IH; assumption].
Qed.

Lemma find_app_keeps {A} (f : A -> bool) (l l' : list A) :
  find f l <> None -> find f (l ++ l') <> None.
Proof.
  induction l as [| y l IH]; cbn; intros F; [congruence |].
  destruct (f y); [discriminate | apply IH, F].
Qed.

(** Storing the same update a second time finds the stored row and changes
    nothing. *)
Lemma storeReading_again (db : DB) (u : UpdateData.t) (t : Z) :
  freshReadingIds db ->
  atMostOneInWindow db (UpdateData.equipmentId u) t ->
  filter (in_window (UpdateData.equipmentId u) (t - 5000) (t + 5000))
    (sensorReadings (snd (storeReading db u t)))
  = [fst (storeReading db u t)]
  /\ map (updateRow (SensorReading.id (fst (storeReading db u t))) u t)
       (sensorReadings (snd (storeReading db u t)))
     = sensorReadings (snd (storeReading db u t))
  /\ applyUpdate (fst (storeReading db u t)) u t = fst (storeReading db u t).
Proof.
  intros [Hnd Hfresh] Hone. unfold storeReading.
  destruct (findReading db _ _ _) as [r |] eqn:F;
    cbn [fst snd sensorReadings].
  - apply findReading_some in F as [Hr Hw].
    split.
    + apply filter_after_update; [exact Hnd | exact Hr |].
      intros x Hx Wx. exact (only_match _ _ x r Hone Hx Wx Hr Hw).
    + split; [| apply applyUpdate_idem].
      rewrite map_map. apply map_ext. intros row. apply updateRow_idem.
  - pose proof (findReading_none _ _ _ _ F) as Hnone.
    split.
    + rewrite filter_app, (filter_nothing _ _ Hnone). cbn [filter app].
      unfold newReading. rewrite in_window_applyUpdate. reflexivity.
    + split; [| apply applyUpdate_idem].
      rewrite map_app. cbn [map]. f_equal.
      * rewrite <- (map_id (sensorReadings db)) at 2. apply map_ext_in.
        intros row Hin. unfold updateRow. cbn [newReading applyUpdate SensorReading.id].
        rewrite Forall_forall in Hfresh. specialize (Hfresh row Hin).
        destruct (Nat.eqb_spec (SensorReading.id row) (nextId db)); [lia | reflexivity].
      * unfold updateRow. cbn [newReading applyUpdate SensorReading.id].
        rewrite Nat.eqb_refl. f_equal. apply applyUpdate_idem.
Qed.

Lemma createAlert_found (db : DB) (d : AlertData.t) :
  find (alertKey (AlertData.equipmentId d) (AlertData.type d)
          (AlertData.title d) active) (alerts (createAlert db d)) <> None.
Proof.
  unfold createAlert.
  destruct (find _ (alerts db)) eqn:F; [rewrite F; discriminate |].
  cbn [alerts]. intros H.
  rewrite (find_app_last _ _ (newAlert (nextId db) d) F) in H; [discriminate |].
  unfold alertKey, newAlert. cbn.
  rewrite !String.eqb_refl. destruct (AlertData.type d); reflexivity.
Qed.

Lemma createAlert_keeps_found (db : DB) (d : AlertData.t) (f : Alert.t -> bool) :
  find f (alerts db) <> None -> find f (alerts (createAlert db d)) <> None.
Proof.
  intros H. unfold createAlert.
  destruct (find (alertKey (AlertData.equipmentId d) (AlertData.type d)
                    (AlertData.title d) active) (alerts db)); [exact H |].
  cbn [alerts]. apply find_app_keeps, H.
Qed.

Lemma createAlerts_keeps_found (l : list AlertData.t) (db : DB)
  (f : Alert.t -> bool) :
  find f (alerts db) <> None -> find f (alerts (createAlerts l db)) <> None.
Proof.
  revert db. induction l as [| d l IH]; intros db H; [exact H |].
  cbn [createAlerts fold_left]. fold (createAlerts l (createAlert db d)).
  apply IH, createAlert_keeps_found, H.
Qed.

Lemma createAlerts_all_found (l : list AlertData.t) (db : DB) :
  forall d, In d l ->
    find (alertKey (AlertData.equipmentId d) (AlertData.type d)
            (AlertData.title d) active) (alerts (createAlerts l db)) <> None.
Proof.
  revert db. induction l as [| d0 l IH]; intros db d Hin; [destruct Hin |].
  cbn [createAlerts fold_left]. fold (createAlerts l (createAlert db d0)).
  destruct Hin as [<- | Hin].
  - apply createAlerts_keeps_found, createAlert_found.
  - apply IH, Hin.
Qed.

Lemma createAlerts_nothing_new (l : list AlertData.t) (db : DB) :
  (forall d, In d l ->
     find (alertKey (AlertData.equipmentId d) (AlertData.type d)
             (AlertData.title d) active) (alerts db) <> None) ->
  createAlerts l db = db.
Proof.
  induction l as [| d l IH]; intros H; [reflexivity |].
  cbn [createAlerts fold_left].
  rewrite (createAlert_existing db d (H d (or_introl eq_refl))).
  apply IH. intros d' Hd'. apply H. right. exact Hd'.
Qed.

(** Handling the same stored message twice is handling it once. *)
Lemma handled_idem (topic : string) (data : SensorData.t) (ts : Date)
  (db : DB) :
  freshReadingIds db ->
  (forall equipmentId t,
     equipmentIdOf topic = Some equipmentId -> ts = Some t ->
     atMostOneInWindow db equipmentId t) ->
  handled topic data ts (handled topic data ts db) = handled topic data ts db.
Proof.
  intros Hids Hone. unfold handled.
  destruct ts as [t |]; [| reflexivity].
  destruct (equipmentIdOf topic) as [equipmentId |]; [| reflexivity].
  specialize (Hone equipmentId t eq_refl eq_refl).
  destruct (findByPk db (Some equipmentId)) as [e |] eqn:He;
    [| rewrite He; reflexivity].
  destruct (TimeClip (t - 5000)); [| rewrite He; reflexivity].
  destruct (TimeClip (t + 5000)); [| rewrite He; reflexivity].
  destruct (mapSensorType (sensorTypeOf topic) data equipmentId (Some t))
    as [u |] eqn:Hu; [| rewrite He; reflexivity].
  destruct (mapSensorType_fields _ _ _ _ _ Hu) as [Hu1 _].
  rewrite <- Hu1 in Hone.
  set (sr := fst (storeReading db u t)).
  set (dbS := snd (storeReading db u t)).
  set (db1 := createAlerts (firedAlerts e sr) dbS).
  destruct (createAlerts_tables (firedAlerts e sr) dbS) as [E1 R1].
  fold db1 in E1, R1.
  assert (He1 : findByPk db1 (Some equipmentId) = Some e).
  { unfold findByPk in *. rewrite E1.
    unfold dbS. rewrite (proj1 (storeReading_tables db u t)). exact He. }
  rewrite He1.
  destruct (storeReading_again db u t Hids Hone) as (Hfind & Hrows & Hsame).
  fold sr dbS in Hfind, Hrows, Hsame.
  assert (Hstore : storeReading db1 u t = (sr, db1)).
  { unfold storeReading.
    rewrite (findReading_only db1 _ _ _ sr) by (rewrite R1; exact Hfind).
    rewrite R1, Hsame, Hrows, <- R1.
    destruct db1; reflexivity. }
  rewrite Hstore. cbn [fst snd].
  apply createAlerts_nothing_new. intros d Hd.
  apply createAlerts_all_found, Hd.
Qed.

(** A message that is delivered again, and resolves to the same timestamp,
    changes nothing when at most one stored reading of its equipment lies
    within 5 seconds of that timestamp: the second handling is merged into
    the reading the first one left, and every alert it would raise is
    already active. *)
Theorem redelivery_changes_nothing (topic : string) (data : SensorData.t)
  (now now' : Z) (db : DB) :
  freshReadingIds db ->
  timestampOf Date_parse data now' = timestampOf Date_parse data now ->
  (forall equipmentId t,
     equipmentIdOf topic = Some equipmentId ->
     timestampOf Date_parse data now = Some t ->
     atMostOneInWindow db equipmentId t) ->
  snd (run (handleMessage Date_parse topic (JsonText (JsonObject data)) now')
         (snd (run (handleMessage Date_parse topic (JsonText (JsonObject data))
                      now) db)))
  = snd (run (handleMessage Date_parse topic (JsonText (JsonObject data)) now) db).
Proof.
  intros Hids Hts Hone. rewrite !run_handleMessage_object. cbn [snd].
  rewrite Hts. apply handled_idem; assumption.
Qed.

End Redelivery.

Lemma redelivery_changes_nothing_witness :
  snd (run (handleMessage sampleDates "sensors/eq-1/temperature"
              (JsonText (JsonObject stampedHot)) 120000)
         (snd (run (handleMessage sampleDates "sensors/eq-1/temperature"
                      (JsonText (JsonObject stampedHot)) 99000)
                 oneReadingStore)))
  = snd (run (handleMessage sampleDates "sensors/eq-1/temperature"
                (JsonText (JsonObject stampedHot)) 99000)
           oneReadingStore).
Proof.
  apply (redelivery_changes_nothing sampleDates "sensors/eq-1/temperature"
           stampedHot 99000 120000 oneReadingStore).
  - split.
    + unfold distinctReadingIds, oneReadingStore. cbn.
      constructor; [intros [] | constructor].
    + unfold oneReadingStore. cbn. constructor; [cbn; lia | constructor].
  - reflexivity.
  - intros equipmentId t Hid Ht.
    injection Hid as <-. injection Ht as <-.
    unfold atMostOneInWindow. cbn. lia.
Defined.

(** The redelivered message of the example is one that raises an alert: the
    first delivery is merged into the stored reading and opens the
    high-temperature alert, and after the second delivery there is still
    one reading and one alert. *)
Lemma redelivered_hot_reading :
  map (fun r => (SensorReading.timestamp r, SensorReading.temperature r))
    (sensorReadings
       (snd (run (handleMessage sampleDates "sensors/eq-1/temperature"
                    (JsonText (JsonObject stampedHot)) 99000)
               oneReadingStore)))
  = [(10000%Z, Some 95%float)]
  /\ map (fun a => (Alert.title a, Alert.status a))
       (alerts
          (snd (run (handleMessage sampleDates "sensors/eq-1/temperature"
                       (JsonText (JsonObject stampedHot)) 120000)
                  (snd (run (handleMessage sampleDates
                               "sensors/eq-1/temperature"
                               (JsonText (JsonObject stampedHot)) 99000)
                          oneReadingStore)))))
     = [("High Temperature Alert"%string, active)].
Proof. split; vm_compute; reflexivity. Qed.

Section OtherEquipment.

Variable Date_parse : string -> option Z.

Lemma filter_others_updateRow (equipmentId : string) (rid : nat)
  (u : UpdateData.t) (t : Z) (l : list SensorReading.t) :
  UpdateData.equipmentId u = equipmentId ->
  (forall row, In row l -> SensorReading.id row = rid ->
               SensorReading.equipmentId row = equipmentId) ->
  filter (fun r => negb (String.eqb (SensorReading.equipmentId r) equipmentId))
    (map (updateRow rid u t) l)
  = filter (fun r => negb (String.eqb (SensorReading.equipmentId r) equipmentId))
      l.
Proof.
  intros Hu. induction l as [| x l IH]; intros H; [reflexivity |].
  cbn [map filter]. rewrite IH by (intros row Hin; apply H; right; exact Hin).
  unfold updateRow. destruct (Nat.eqb_spec (SensorReading.id x) rid) as [E | E].
  - cbn [applyUpdate SensorReading.equipmentId].
    rewrite Hu, (H x (or_introl eq_refl) E), String.eqb_refl. reflexivity.
  - reflexivity.
Qed.

Lemma storeReading_others (db : DB) (u : UpdateData.t) (t : Z) :
  distinctReadingIds db ->
  readingsOfOthers (UpdateData.equipmentId u) (snd (storeReading db u t))
  = readingsOfOthers (UpdateData.equipmentId u) db.
Proof.
  intros Hnd. unfold readingsOfOthers, storeReading.
  destruct (findReading db _ _ _) as [r |] eqn:F;
    cbn [snd sensorReadings].
  - apply findReading_some in F as [Hin Hw].
    apply filter_others_updateRow; [reflexivity |].
    intros row Hrow E.
    rewrite (same_id_same_row _ row r Hnd Hrow Hin E).
    unfold in_window in Hw. apply andb_prop in Hw as [Hw _].
    apply andb_prop in Hw as [Hw _]. apply String.eqb_eq, Hw.
  - rewrite filter_app. cbn [filter newReading applyUpdate SensorReading.equipmentId].
    rewrite String.eqb_refl. cbn. apply app_nil_r.
Qed.

(** A message for one equipment leaves the readings and the alerts of every
    other equipment exactly as they were. *)
Theorem handleMessage_leaves_other_equipment (topic : string)
  (message : Message) (now : Z) (db : DB) (equipmentId : string) :
  equipmentIdOf topic = Some equipmentId ->
  distinctReadingIds db ->
  readingsOfOthers equipmentId
    (snd (run (handleMessage Date_parse topic message now) db))
  = readingsOfOthers equipmentId db
  /\ alertsOfOthers equipmentId
       (snd (run (handleMessage Date_parse topic message now) db))
     = alertsOfOthers equipmentId db.
Proof.
  intros Hid Hnd. split.
  - destruct (run_handleMessage_cases Date_parse topic message now db)
      as [R | (id & e & u & t & Hid' & He & Hu & R)]; rewrite R; cbn [snd];
      [reflexivity |].
    assert (Hu' : UpdateData.equipmentId u = equipmentId) by congruence.
    unfold readingsOfOthers.
    rewrite (proj2 (createAlerts_tables _ _)).
    rewrite <- Hu'. apply storeReading_others, Hnd.
  - destruct (run_handleMessage_new_alerts Date_parse topic message now db)
      as (new & Hn & _ & Hall).
    unfold alertsOfOthers. rewrite Hn, filter_app.
    rewrite <- (app_nil_r (filter _ (alerts db))) at 2. f_equal.
    assert (Hall' : Forall (fun a => Alert.equipmentId a = equipmentId) new).
    { eapply Forall_impl; [| exact Hall]. intros a (_ & Ha & _). congruence. }
    clear Hn Hall. induction Hall' as [| a new' Ha _ IH]; [reflexivity |].
    cbn [filter]. rewrite Ha, String.eqb_refl. exact IH.
Qed.

(** Handled one after the other, any sequence of messages keeps the alert
    table free of duplicate active alerts. *)
Theorem handleAll_keeps_uniqueActive
  (messages : list (string * Message * Z)) (db : DB) :
  uniqueActive db -> uniqueActive (handleAll Date_parse messages db).
Proof.
  revert db. induction messages as [| m messages IH]; intros db H; [exact H |].
  unfold handleAll. cbn [fold_left].
  apply IH, (handleMessage_uniqueActive Date_parse), H.
Qed.

End OtherEquipment.

Lemma handleMessage_leaves_other_equipment_witness :
  (readingsOfOthers "eq-1"
     (snd (run (handleMessage sampleDates "sensors/eq-1/temperature"
                  (valuePayload 95) 2000) twoMachinesStore))
   = readingsOfOthers "eq-1" twoMachinesStore
   /\ alertsOfOthers "eq-1"
        (snd (run (handleMessage sampleDates "sensors/eq-1/temperature"
                     (valuePayload 95) 2000) twoMachinesStore))
      = alertsOfOthers "eq-1" twoMachinesStore)
  /\ readingsOfOthers "eq-1" twoMachinesStore
     = [ SensorReading.mk 1 "eq-2" 1000 (Some 60%float) (Some 12%float) None
           None None None None None None ]
  /\ map Alert.id (alertsOfOthers "eq-1" twoMachinesStore) = [2].
Proof.
  split; [| split; reflexivity].
  apply (handleMessage_leaves_other_equipment sampleDates
           "sensors/eq-1/temperature" (valuePayload 95) 2000 twoMachinesStore
           "eq-1").
  - reflexivity.
  - unfold distinctReadingIds, twoMachinesStore. cbn.
    repeat constructor; cbn; intuition discriminate.
Defined.

(** The message of the example is handled: it is merged into the reading
    of the first machine and opens that machine's high-temperature alert,
    next to the reading and the alert of the second machine. *)
Lemma other_machine_message_is_handled :
  map (fun r => (SensorReading.equipmentId r, SensorReading.timestamp r,
                 SensorReading.temperature r))
    (sensorReadings
       (snd (run (handleMessage sampleDates "sensors/eq-1/temperature"
                    (valuePayload 95) 2000) twoMachinesStore)))
  = [ ("eq-1"%string, 2000%Z, Some 95%float);
      ("eq-2"%string, 1000%Z, Some 60%float) ]
  /\ map (fun a => (Alert.equipmentId a, Alert.title a, Alert.status a))
       (alerts
          (snd (run (handleMessage sampleDates "sensors/eq-1/temperature"
                       (valuePayload 95) 2000) twoMachinesStore)))
     = [ ("eq-2"%string, "High Vibration Alert"%string, active);
         ("eq-1"%string, "High Temperature Alert"%string, active) ].
Proof. split; vm_compute; reflexivity. Qed.

Lemma handleAll_keeps_uniqueActive_witness :
  uniqueActive (handleAll sampleDates scenarioStream freshStore).
Proof.
  apply handleAll_keeps_uniqueActive.
  intros e t ti. unfold activeCount. cbn. lia.
Defined.

(* ================================================================== *)
(** * The health score and what is derived from it *)

Section HealthScore.

Ltac split_tests :=
  repeat match goal with
         | |- context [if gt ?a ?b || lt ?c ?d then _ else _] =>
             destruct (gt a b || lt c d)
         | |- context [if gt ?a ?b then _ else _] => destruct (gt a b)
         end.


Lemma analytics_score_at_least_40
  (readings : option (list SensorReading.t)) (equipment : Equipment.t) :
  (40 <=? AnalyticsRoutes.calculateHealthScore readings equipment)%float = true.
Proof.
  destruct readings as [[| latest rest] |];
    unfold AnalyticsRoutes.calculateHealthScore;
    split_tests; reflexivity.
Qed.

Lemma countHealth_at_least_40 (h : HealthDistribution.t) (score : float) :
  (40 <=? score)%float = true ->
  HealthDistribution.poor (AnalyticsRoutes.countHealth h score)
  = HealthDistribution.poor h
  /\ counted (AnalyticsRoutes.countHealth h score) = S (counted h).
Proof.
  intros H. unfold AnalyticsRoutes.countHealth, counted. rewrite H.
  destruct (80 <=? score)%float, (60 <=? score)%float; cbn; split; lia.
Qed.

Lemma healthDistribution_from
  (equipmentList : list (Equipment.t * option (list SensorReading.t)))
  (h : HealthDistribution.t) :
  HealthDistribution.poor
    (fold_left
       (fun h equipment =>
          AnalyticsRoutes.countHealth h
            (AnalyticsRoutes.calculateHealthScore (snd equipment) (fst equipment)))
       equipmentList h)
  = HealthDistribution.poor h
  /\ counted
       (fold_left
          (fun h equipment =>
             AnalyticsRoutes.countHealth h
               (AnalyticsRoutes.calculateHealthScore (snd equipment) (fst equipment)))
          equipmentList h)
     = counted h + List.length equipmentList.
Proof.
  revert h. induction equipmentList as [| x l IH]; intros h; cbn [fold_left].
  - split; [reflexivity | cbn; lia].
  - destruct (IH (AnalyticsRoutes.countHealth h
                    (AnalyticsRoutes.calculateHealthScore (snd x) (fst x))))
      as [P C].
    destruct (countHealth_at_least_40 h _
                (analytics_score_at_least_40 (snd x) (fst x))) as [P' C'].
    rewrite P, C, P', C'. split; [reflexivity | cbn; lia].
Qed.

(** The dashboard counts every equipment exactly once, and never as
    "poor": the score cannot fall below 40, the bound of that bucket. *)
Theorem healthDistribution_never_poor
  (equipmentList : list (Equipment.t * option (list SensorReading.t))) :
  HealthDistribution.poor (AnalyticsRoutes.healthDistribution equipmentList) = 0
  /\ counted (AnalyticsRoutes.healthDistribution equipmentList)
     = List.length equipmentList.
Proof.
  unfold AnalyticsRoutes.healthDistribution.
  destruct (healthDistribution_from equipmentList (HealthDistribution.mk 0 0 0 0))
    as [P C].
  rewrite P, C. split; reflexivity.
Qed.

(** The health response never recommends an immediate inspection: that
    recommendation needs a score below 30.  It holds at most two
    recommendations, all of medium priority. *)
Theorem healthResponse_never_high_priority
  (latestReadings : list SensorReading.t) (equipment : Equipment.t)
  (daysSinceLastMaintenance : option Z) :
  Forall (fun r => Recommendation.priority r = priority_medium)
    (snd (EquipmentRoutes.healthResponse latestReadings equipment
            daysSinceLastMaintenance))
  /\ List.length
       (snd (EquipmentRoutes.healthResponse latestReadings equipment
               daysSinceLastMaintenance)) <= 2.
Proof.
  unfold EquipmentRoutes.healthResponse. cbn [snd].
  unfold EquipmentRoutes.generateRecommendations.
  destruct daysSinceLastMaintenance as [days |];
    [destruct (negb (days =? 0)%Z && (90 <? days)%Z) |];
    (destruct latestReadings as [| latest rest];
     unfold EquipmentRoutes.calculateHealthScore;
     split_tests; vm_compute;
     (split; [repeat (constructor; try reflexivity) | lia])).
Qed.

(** Whenever the health response carries an alert, its score is 80 at
    most. *)
Theorem generateAlerts_lower_the_score
  (readings : option (list SensorReading.t)) (equipment : Equipment.t) :
  EquipmentRoutes.generateAlerts readings equipment <> [] ->
  (EquipmentRoutes.calculateHealthScore readings equipment <=? 80)%float = true.
Proof.
  destruct readings as [[| latest rest] |];
    unfold EquipmentRoutes.generateAlerts,
           EquipmentRoutes.calculateHealthScore;
    try (intros H; exfalso; apply H; reflexivity).
  destruct (gt (SensorReading.temperature latest)
              (Equipment.maxTemperature equipment)),
           (gt (SensorReading.vibration latest)
              (Equipment.maxVibration equipment));
    cbn [app]; intros H; try (exfalso; apply H; reflexivity);
    split_tests; reflexivity.
Qed.

(** A temperature or vibration that makes the ingestion service raise an
    alert is also reported by [generateAlerts] when that reading is the
    latest one. *)
Theorem ingestion_alert_is_a_route_alert (equipment : Equipment.t)
  (latest : SensorReading.t) (rest : list SensorReading.t) :
  (temperatureFires equipment latest = true ->
   In (RouteAlert.mk critical "Temperature exceeds maximum threshold"
         (SensorReading.temperature latest)
         (Equipment.maxTemperature equipment))
      (EquipmentRoutes.generateAlerts (Some (latest :: rest)) equipment))
  /\ (vibrationFires equipment latest = true ->
      In (RouteAlert.mk warning "Vibration levels are high"
            (SensorReading.vibration latest)
            (Equipment.maxVibration equipment))
         (EquipmentRoutes.generateAlerts (Some (latest :: rest)) equipment)).
Proof.
  unfold temperatureFires, vibrationFires, EquipmentRoutes.generateAlerts.
  split; intros H; apply andb_prop in H as [_ H]; rewrite H.
  - left. reflexivity.
  - apply in_or_app. right. left. reflexivity.
Qed.

End HealthScore.

Lemma generateAlerts_lower_the_score_witness :
  (EquipmentRoutes.calculateHealthScore (Some [worstReading]) eq1 <=? 80)%float
  = true.
Proof.
  apply generateAlerts_lower_the_score. discriminate.
Defined.

Lemma ingestion_alert_is_a_route_alert_witness :
  In (RouteAlert.mk critical "Temperature exceeds maximum threshold"
        (SensorReading.temperature worstReading) (Equipment.maxTemperature eq1))
     (EquipmentRoutes.generateAlerts (Some [worstReading]) eq1)
  /\ In (RouteAlert.mk warning "Vibration levels are high"
           (SensorReading.vibration worstReading) (Equipment.maxVibration eq1))
        (EquipmentRoutes.generateAlerts (Some [worstReading]) eq1).
Proof.
  split.
  - apply (proj1 (ingestion_alert_is_a_route_alert eq1 worstReading [])).
    reflexivity.
  - apply (proj2 (ingestion_alert_is_a_route_alert eq1 worstReading [])).
    reflexivity.
Defined.

(* ================================================================== *)
(** * Topics *)

Lemma split_without_slash (s : string) :
  hasSlash s = false -> split "/" s = [s].
Proof.
  induction s as [| c s IH]; cbn [hasSlash split]; intros H; [reflexivity |].
  apply orb_false_elim in H as [Hc Hs]. rewrite Hc, (IH Hs). reflexivity.
Qed.

Lemma split_at_slash (a b : string) :
  hasSlash a = false ->
  split "/" (String.append a (String "/"%char b)) = a :: split "/" b.
Proof.
  induction a as [| c a IH]; cbn [hasSlash String.append]; intros H.
  - reflexivity.
  - apply orb_false_elim in H as [Hc Ha].
    cbn [split]. rewrite Hc, (IH Ha). reflexivity.
Qed.

(** The subscriptions and the [switch] of [processSensorData] agree: a
    publication on a subscribed pattern, for an equipment id that holds no
    slash, is split into that id and a metric type with a [case] of its own,
    so it never reaches the "unknown sensor type" branch. *)
Theorem subscribed_topics_are_handled (equipmentId sensorType : string) :
  In (topicFor "+" sensorType) Connection.topics ->
  hasSlash equipmentId = false ->
  equipmentIdOf (topicFor equipmentId sensorType) = Some equipmentId
  /\ sensorTypeOf (topicFor equipmentId sensorType) = Some sensorType
  /\ isSupported (Some sensorType) = true.
Proof.
  intros Hin Hid.
  assert (Hty : In sensorType supportedTypes).
  { unfold Connection.topics, topicFor in Hin. cbn in Hin.
    repeat (destruct Hin as [Hin | Hin];
            [inversion Hin; cbn; auto 10 |]).
    destruct Hin. }
  assert (Hslash : hasSlash sensorType = false).
  { cbn in Hty.
    repeat (destruct Hty as [<- | Hty]; [reflexivity |]). destruct Hty. }
  assert (Hsplit : split "/" (topicFor equipmentId sensorType)
                   = ["sensors"%string; equipmentId; sensorType]).
  { unfold topicFor.
    change ("sensors/" ++ (equipmentId ++ String "/" sensorType))%string
      with (String.append "sensors"
              (String "/"%char
                 (String.append equipmentId (String "/"%char sensorType)))).
    rewrite split_at_slash by reflexivity.
    rewrite split_at_slash by exact Hid.
    rewrite split_without_slash by exact Hslash. reflexivity. }
  unfold equipmentIdOf, sensorTypeOf. rewrite Hsplit.
  split; [reflexivity |]. split; [reflexivity |].
  cbn in Hty.
  repeat (destruct Hty as [<- | Hty]; [reflexivity |]). destruct Hty.
Qed.

Lemma subscribed_topics_are_handled_witness :
  equipmentIdOf (topicFor "pump-7" "vibration") = Some "pump-7"%string
  /\ sensorTypeOf (topicFor "pump-7" "vibration") = Some "vibration"%string
  /\ isSupported (Some "vibration"%string) = true.
Proof.
  apply subscribed_topics_are_handled.
  - right. left. reflexivity.
  - reflexivity.
Defined.

(* ================================================================== *)
(** * The connection *)

Section ConnectionFacts.

Import Connection.

Lemma subscribeToTopics_fields (s : t) :
  client (subscribeToTopics s) = client s
  /\ isConnected (subscribeToTopics s) = isConnected s
  /\ published (subscribeToTopics s) = published s.
Proof. repeat split; reflexivity. Qed.

Lemma act_connected_has_client (s : t) (a : Action) :
  (isConnected s = true -> client s = true) ->
  isConnected (act s a) = true -> client (act s a) = true.
Proof.
  intros H.
  destruct a; cbn [act]; try destruct ok;
    destruct (client s) eqn:C, (isConnected s) eqn:I; cbn; intros;
    try reflexivity; try discriminate; try assumption;
    try (specialize (H eq_refl); discriminate H); congruence.
Qed.

Lemma actAll_connected_has_client (actions : list Action) :
  isConnected (actAll actions initial) = true ->
  client (actAll actions initial) = true.
Proof.
  unfold actAll.
  assert (G : forall s, (isConnected s = true -> client s = true) ->
                        isConnected (fold_left act actions s) = true ->
                        client (fold_left act actions s) = true).
  { induction actions as [| a l IH]; intros s H; [exact H |].
    cbn [fold_left]. apply IH, act_connected_has_client, H. }
  apply G. cbn. discriminate.
Qed.

(** Whatever is asked of the service and whatever the broker client
    reports, [isConnected] is only ever true while [this.client] is set. *)
Theorem connected_only_with_client (actions : list Action) :
  isConnected (actAll actions initial) = true ->
  client (actAll actions initial) = true.
Proof. apply actAll_connected_has_client. Qed.

Lemma quiet_while_disconnected (actions : list Action) (s : t) :
  Forall (fun a => a <> on_connect) actions ->
  isConnected s = false ->
  published (actAll actions s) = published s.
Proof.
  unfold actAll. revert s.
  induction actions as [| a l IH]; intros s Hall Hs; [reflexivity |].
  inversion Hall as [| ? ? Ha Hl]; subst. cbn [fold_left].
  assert (Hstep : isConnected (act s a) = false
                  /\ published (act s a) = published s).
  { destruct a; cbn [act].
    - destruct ok; split; assumption || reflexivity.
    - congruence.
    - destruct (client s); split; assumption || reflexivity.
    - destruct (client s); split; assumption || reflexivity.
    - split; assumption || reflexivity.
    - rewrite Hs. split; assumption || reflexivity.
    - destruct (client s); split; assumption || reflexivity. }
  destruct Hstep as [Hc Hp]. rewrite (IH _ Hl Hc). exact Hp.
Qed.

(** After [disconnect()] nothing more is published until the broker client
    reports a new connection: [publish] is refused, also across errors,
    closes, reconnect attempts and further calls of [connect()]. *)
Theorem nothing_published_after_disconnect (before after : list Action) :
  Forall (fun a => a <> on_connect) after ->
  published (actAll (before ++ disconnect :: after) initial)
  = published (actAll before initial).
Proof.
  intros Hall. unfold actAll. rewrite fold_left_app. cbn [fold_left].
  fold (actAll before initial).
  set (s := actAll before initial).
  fold (actAll after (act s disconnect)).
  rewrite quiet_while_disconnected; [| exact Hall |].
  - cbn [act]. destruct (client s); reflexivity.
  - cbn [act]. destruct (client s) eqn:C; [reflexivity |].
    destruct (isConnected s) eqn:I; [| reflexivity].
    pose proof (actAll_connected_has_client before I) as C'.
    fold s in C'. congruence.
Qed.

End ConnectionFacts.

Lemma connected_only_with_client_witness :
  Connection.client
    (Connection.actAll [Connection.connect true; Connection.on_connect]
       Connection.initial) = true.
Proof. apply connected_only_with_client. reflexivity. Defined.

Lemma nothing_published_after_disconnect_witness :
  Connection.published
    (Connection.actAll
       ([Connection.connect true; Connection.on_connect;
         Connection.publish "commands/eq-1" "stop"]
        ++ Connection.disconnect
           :: [Connection.on_reconnect; Connection.publish "commands/eq-1" "start"])
       Connection.initial)
  = Connection.published
      (Connection.actAll
         [Connection.connect true; Connection.on_connect;
          Connection.publish "commands/eq-1" "stop"]
         Connection.initial).
Proof.
  apply nothing_published_after_disconnect.
  repeat constructor; discriminate.
Defined.

(* ================================================================== *)
(** * The clamp of the failure probability *)

Section Clamp.

Local Open Scope float_scope.

Variable momentAddDays : float -> Z.

Lemma ltb_leb (x y : float) : (x <? y) = true -> (x <=? y) = true.
Proof.
  rewrite ltb_spec, leb_spec. unfold SFltb, SFleb.
  destruct (SFcompare (Prim2SF x) (Prim2SF y)) as [[| |] |];
    intros H; try discriminate H; reflexivity.
Qed.

Lemma SFeqb_refl (f : spec_float) : f <> S754_nan -> SFeqb f f = true.
Proof.
  unfold SFeqb. intros H.
  destruct f as [s | s | | s m e]; try (destruct s); simpl;
    try reflexivity; try (exfalso; apply H; reflexivity).
  - rewrite Z.compare_refl, Pos.compare_cont_refl. reflexivity.
  - rewrite Z.compare_refl, Pos.compare_cont_refl. reflexivity.
Qed.

Lemma is_nan_eq (x : float) : is_nan x = true -> x = nan.
Proof.
  unfold is_nan. rewrite eqb_spec. intros H.
  apply Prim2SF_inj. change (Prim2SF nan) with S754_nan.
  destruct (Prim2SF x) as [s | s | | s m e] eqn:E; try reflexivity;
    rewrite SFeqb_refl in H by discriminate; discriminate H.
Qed.

(** [Math.min(100, ...)] keeps the failure probability at 100 or below, but
    lets NaN through. *)
Theorem failureProbability_at_most_100 (historicalData : list SensorReading.t)
  (equipment : Equipment.t) :
  is_nan (EquipmentRoutes.failureProbabilityOf historicalData equipment) = true
  \/ (EquipmentRoutes.failureProbabilityOf historicalData equipment <=? 100)
     = true.
Proof.
  unfold EquipmentRoutes.failureProbabilityOf. cbv zeta.
  generalize ((EquipmentRoutes.average SensorReading.temperature historicalData
               / ToNumber (Equipment.maxTemperature equipment)
               + EquipmentRoutes.average SensorReading.vibration historicalData
                 / ToNumber (Equipment.maxVibration equipment)) * 50).
  intros y. unfold Math_min.
  change (is_nan 100) with false. cbn [orb].
  destruct (is_nan y); [left; reflexivity |].
  destruct (100 <? y); [right; reflexivity |].
  destruct (y <? 100) eqn:L; [right; apply ltb_leb, L |].
  right. reflexivity.
Qed.

(** Whenever the failure probability is NaN -- an empty history, or a zero
    average over a zero threshold -- the prediction still comes back, with
    risk level ['low'], confidence 85 and NaN for the probability and the
    remaining useful life. *)
Theorem generatePredictions_nan_is_low (historicalData : list SensorReading.t)
  (equipment : Equipment.t) :
  is_nan (EquipmentRoutes.failureProbabilityOf historicalData equipment) = true ->
  Predictions.riskLevel
    (EquipmentRoutes.generatePredictions momentAddDays historicalData equipment)
  = low
  /\ Predictions.failureProbability
       (EquipmentRoutes.generatePredictions momentAddDays historicalData equipment)
     = nan
  /\ Predictions.remainingUsefulLife
       (EquipmentRoutes.generatePredictions momentAddDays historicalData equipment)
     = nan
  /\ Predictions.confidence
       (EquipmentRoutes.generatePredictions momentAddDays historicalData equipment)
     = 85.
Proof.
  intros H. apply is_nan_eq in H.
  unfold EquipmentRoutes.generatePredictions. cbv zeta.
  cbn [Predictions.riskLevel Predictions.failureProbability
       Predictions.remainingUsefulLife Predictions.confidence].
  rewrite H. repeat split; reflexivity.
Qed.

End Clamp.

Lemma generatePredictions_nan_is_low_witness :
  Predictions.riskLevel
    (EquipmentRoutes.generatePredictions (fun _ => 0%Z) flatHistory zeroProfile)
  = low
  /\ Predictions.failureProbability
       (EquipmentRoutes.generatePredictions (fun _ => 0%Z) flatHistory zeroProfile)
     = nan
  /\ Predictions.remainingUsefulLife
       (EquipmentRoutes.generatePredictions (fun _ => 0%Z) flatHistory zeroProfile)
     = nan
  /\ Predictions.confidence
       (EquipmentRoutes.generatePredictions (fun _ => 0%Z) flatHistory zeroProfile)
     = 85%float.
Proof.
  apply generatePredictions_nan_is_low. reflexivity.
Defined.

(* ================================================================== *)
(** * A reading above the maximum leaves an active alert *)

Section HotReading.

Variable Date_parse : string -> option Z.




End HotReading.

